(** * Session reconciliation of the eRehistroPH authentication provider

    A shallow embedding of [src/contexts/AuthContext.tsx]: the
    [AuthProvider] component, its [handleSession] reconciliation pass, the
    operations it exposes ([login], [logout], [signUp], [refreshUser],
    [sendPasswordResetEmail], [updateUserProfile], [updateUserPassword]),
    the [onAuthStateChange] subscriber with its debounce timer, the read
    of the initial session, the handling of the e-mail confirmation link,
    and the route guard.

    Asynchronous functions are embedded as programs of a small free monad
    whose [Await] nodes are the source's [await]ed calls to the Supabase
    client and whose [Do] nodes are the synchronous effects on the
    provider (React state setters, toasts, console, router, timers).  A
    program is run against any implementation of the Supabase client
    (class [Supabase]); every remote call may answer with a value or throw.
    Synchronous callbacks (the auth-state subscriber, timers, the route
    guard) are embedded as functions on the provider state. *)

From stdpp Require Import base option list strings gmap.
From Stdlib Require Import ZArith Lia.

Open Scope string_scope.
Open Scope list_scope.
Open Scope Z_scope.

(** ** Data model *)

(** [User] of supabase-js, restricted to what the provider reads:
    [id], [email] (read through the non-null assertion [email!]) and
    [user_metadata?.username]. *)
Record User := {
  u_id : string;
  u_email : string;
  u_meta_username : option string;
}.

(** [Session]: [user] is a required field, [expires_at?] (seconds) is not. *)
Record Session := {
  s_user : User;
  s_expires_at : option Z;
}.

(** [type UserRole = 'officer' | 'public'], assigned from the store with
    [appUser.role as UserRole]: at run time it is whatever string the row
    carries. *)
Definition UserRole := string.

Record AuthenticatedUser := {
  id : string;
  email : string;
  voterId : option string;
  precinct : option string;
  username : string;
  role : UserRole;
  registrationStatus : option string;
}.

(** Errors of the client ([AuthError], [PostgrestError]): a code and a
    message. *)
Record SbError := {
  err_code : string;
  err_message : string;
}.

(** [{ data: { session }, error }] of the [supabase.auth] calls. *)
Record AuthResp := {
  ar_session : option Session;
  ar_error : option SbError;
}.

(** [{ data, error }] of a query; at run time both fields are nullable. *)
Record QueryResp (T : Type) := {
  q_data : option T;
  q_error : option SbError;
}.
Arguments q_data {T} _.
Arguments q_error {T} _.

(** Result of [.select('role, username')]. *)
Record Row := {
  row_role : string;
  row_username : option string;
}.

(** Argument of [.insert({ auth_id, email, username, role })]. *)
Record NewRow := {
  nr_auth_id : string;
  nr_email : string;
  nr_username : string;
  nr_role : string;
}.

(** An embedded relation comes back as an array, one object, or null. *)
Inductive Rel (T : Type) :=
| RelNull
| RelOne (x : T)
| RelMany (xs : list T).
Arguments RelNull {T}.
Arguments RelOne {T} _.
Arguments RelMany {T} _.

Record Application := {
  application_type : string;
  status : option string;
}.

Record VoterRecord := {
  voter_id : option string;
  precinct_number : option string;
}.

Record Applicant := {
  application : Rel Application;
  applicant_voter_record : Rel VoterRecord;
}.

Record ToastMsg := {
  title : string;
  description : string;
  destructive : bool;
}.

Inductive Level := LogLevel | WarnLevel | ErrorLevel.

(** A thrown JavaScript value: [null] or [undefined], or a value whose
    [message] may be missing. *)
Inductive Exn :=
| Nullish
| Thrown (message : option string).

(** [error?.message]. *)
Definition exn_message (error : Exn) : option string :=
  match error with
  | Nullish => None
  | Thrown message => message
  end.

Inductive Outcome (X : Type) :=
| Returned (x : X)
| Threw (e : Exn).
Arguments Returned {X} _.
Arguments Threw {X} _.

(** Callbacks handed to [setTimeout]. *)
Inductive TimerAction :=
| ClearPasswordUpdateFlow
| ClearProcessingPasswordUpdate
| DebouncedHandleSession (session : option Session).

(** ** JavaScript helpers *)

(** [x || ''] on a nullable string. *)
Definition or_empty (x : option string) : string :=
  match x with Some s => s | None => "" end.

(** [x || y] on nullable strings: the empty string is falsy. *)
Definition or_else (x y : option string) : option string :=
  match x with
  | Some s => if String.eqb s "" then y else Some s
  | None => y
  end.

(** [x || null]. *)
Definition or_null (x : option string) : option string := or_else x None.

(** [s.includes(sub)]. *)
Fixpoint includes (sub s : string) : bool :=
  String.prefix sub s ||
  match s with
  | EmptyString => false
  | String _ s' => includes sub s'
  end.

(** [s.startsWith(p)]. *)
Definition startsWith (p s : string) : bool := String.prefix p s.

(** [Array.isArray(a) ? a : a ? [a] : []]. *)
Definition rel_to_list {T} (r : Rel T) : list T :=
  match r with
  | RelNull => []
  | RelOne x => [x]
  | RelMany xs => xs
  end.

(** [Array.isArray(a) ? a[0] : a]. *)
Definition rel_first {T} (r : Rel T) : option T :=
  match r with
  | RelNull => None
  | RelOne x => Some x
  | RelMany xs => head xs
  end.

(** ** Programs *)

(** The awaited calls to the Supabase client. *)
Inductive RemoteOp : Type -> Type :=
| RefreshSession : RemoteOp AuthResp
| SignOut : RemoteOp (option SbError)
| GetSession : RemoteOp AuthResp
| SignInWithPassword (email_ password_ : string) : RemoteOp AuthResp
| UpdateUser (password_ : string) : RemoteOp (option SbError)
| SelectSingle (table auth_id : string) : RemoteOp (QueryResp Row)
| InsertSelectSingle (table : string) (row : NewRow) : RemoteOp (QueryResp Row)
| SelectApplicant (auth_id : string) : RemoteOp (QueryResp Applicant)
| UpdateUsername (table auth_id : string) (username_ : option string)
    : RemoteOp (option SbError).

(** The synchronous effects on the provider. *)
Inductive LocalOp : Type -> Type :=
| DateNow : LocalOp Z
| SetUser (u : option AuthenticatedUser) : LocalOp unit
| SetIsLoading (b : bool) : LocalOp unit
| SetIsPasswordUpdateFlow (b : bool) : LocalOp unit
| Toast (t : ToastMsg) : LocalOp unit
| Console (lvl : Level) (msg : string) : LocalOp unit
| RouterPush (path : string) : LocalOp unit
| SetTimeout (a : TimerAction) (delay : Z) : LocalOp nat.

Inductive Prog (A : Type) : Type :=
| Ret (a : A)
| Throw (e : Exn)
| Do {X : Type} (op : LocalOp X) (k : X -> Prog A)
| Await {X : Type} (op : RemoteOp X) (k : Outcome X -> Prog A).
Arguments Ret {A} _.
Arguments Throw {A} _.
Arguments Do {A X} _ _.
Arguments Await {A X} _ _.

Fixpoint bind {A B} (m : Prog A) (f : A -> Prog B) : Prog B :=
  match m with
  | Ret a => f a
  | Throw e => Throw e
  | Do op k => Do op (fun x => bind (k x) f)
  | Await op k => Await op (fun o => bind (k o) f)
  end.

(** [try { m } catch (e) { h e }]. *)
Fixpoint try_catch {A} (m : Prog A) (h : Exn -> Prog A) : Prog A :=
  match m with
  | Ret a => Ret a
  | Throw e => h e
  | Do op k => Do op (fun x => try_catch (k x) h)
  | Await op k => Await op (fun o => try_catch (k o) h)
  end.

Definition perform {X} (op : LocalOp X) : Prog X := Do op Ret.

(** [await op]: a rejected promise is rethrown at the [await]. *)
Definition await {X} (op : RemoteOp X) : Prog X :=
  Await op (fun o => match o with Returned x => Ret x | Threw e => Throw e end).

Declare Scope prog_scope.
Delimit Scope prog_scope with prog.
Notation "x <- m ;; k" := (bind m (fun x => k))
  (at level 100, m at next level, right associativity) : prog_scope.
Notation "m ;;; k" := (bind m (fun _ => k))
  (at level 100, right associativity) : prog_scope.
Open Scope prog_scope.

(** Reading a property of [null] throws a [TypeError]. *)
Definition TypeError : Exn :=
  Thrown (Some "Cannot read properties of null").

Definition deref {T} (x : option T) : Prog T :=
  match x with Some v => Ret v | None => Throw TypeError end.

(** A call to an asynchronous function that is not awaited: the function
    runs on to its first [await] (or to its end) within the call, and
    what is left of it goes on later; the caller gets what is left. *)
Fixpoint start {A} (m : Prog A) : Prog (Prog A) :=
  match m with
  | Do op k => Do op (fun x => start (k x))
  | _ => Ret m
  end.

(** ** Provider state *)

Record Timer := {
  tid : nat;
  due : Z;
  action : TimerAction;
}.

(** The state of one mounted [AuthProvider]: its three [useState] cells,
    what it has sent to the toast, console and router collaborators, the
    clock and pending timers of the event loop, and the two local
    variables of the subscription effect ([isProcessingPasswordUpdate],
    [timeoutId]).  Times are in milliseconds. *)
Record Provider := {
  user : option AuthenticatedUser;
  isLoading : bool;
  isPasswordUpdateFlow : bool;
  toasts : list ToastMsg;
  console : list (Level * string);
  pushes : list string;
  now : Z;
  timers : list Timer;
  next_tid : nat;
  isProcessingPasswordUpdate : bool;
  timeoutId : option nat;
}.

Definition set_user (u : option AuthenticatedUser) (p : Provider) : Provider :=
  {| user := u; isLoading := isLoading p;
     isPasswordUpdateFlow := isPasswordUpdateFlow p; toasts := toasts p;
     console := console p; pushes := pushes p; now := now p;
     timers := timers p; next_tid := next_tid p;
     isProcessingPasswordUpdate := isProcessingPasswordUpdate p;
     timeoutId := timeoutId p |}.

Definition set_isLoading (b : bool) (p : Provider) : Provider :=
  {| user := user p; isLoading := b;
     isPasswordUpdateFlow := isPasswordUpdateFlow p; toasts := toasts p;
     console := console p; pushes := pushes p; now := now p;
     timers := timers p; next_tid := next_tid p;
     isProcessingPasswordUpdate := isProcessingPasswordUpdate p;
     timeoutId := timeoutId p |}.

Definition set_isPasswordUpdateFlow (b : bool) (p : Provider) : Provider :=
  {| user := user p; isLoading := isLoading p;
     isPasswordUpdateFlow := b; toasts := toasts p;
     console := console p; pushes := pushes p; now := now p;
     timers := timers p; next_tid := next_tid p;
     isProcessingPasswordUpdate := isProcessingPasswordUpdate p;
     timeoutId := timeoutId p |}.

Definition add_toast (t : ToastMsg) (p : Provider) : Provider :=
  {| user := user p; isLoading := isLoading p;
     isPasswordUpdateFlow := isPasswordUpdateFlow p; toasts := toasts p ++ [t];
     console := console p; pushes := pushes p; now := now p;
     timers := timers p; next_tid := next_tid p;
     isProcessingPasswordUpdate := isProcessingPasswordUpdate p;
     timeoutId := timeoutId p |}.

Definition add_console (l : Level) (msg : string) (p : Provider) : Provider :=
  {| user := user p; isLoading := isLoading p;
     isPasswordUpdateFlow := isPasswordUpdateFlow p; toasts := toasts p;
     console := console p ++ [(l, msg)]; pushes := pushes p; now := now p;
     timers := timers p; next_tid := next_tid p;
     isProcessingPasswordUpdate := isProcessingPasswordUpdate p;
     timeoutId := timeoutId p |}.

Definition add_push (path : string) (p : Provider) : Provider :=
  {| user := user p; isLoading := isLoading p;
     isPasswordUpdateFlow := isPasswordUpdateFlow p; toasts := toasts p;
     console := console p; pushes := pushes p ++ [path]; now := now p;
     timers := timers p; next_tid := next_tid p;
     isProcessingPasswordUpdate := isProcessingPasswordUpdate p;
     timeoutId := timeoutId p |}.

Definition set_now (t : Z) (p : Provider) : Provider :=
  {| user := user p; isLoading := isLoading p;
     isPasswordUpdateFlow := isPasswordUpdateFlow p; toasts := toasts p;
     console := console p; pushes := pushes p; now := t;
     timers := timers p; next_tid := next_tid p;
     isProcessingPasswordUpdate := isProcessingPasswordUpdate p;
     timeoutId := timeoutId p |}.

Definition set_timers (ts : list Timer) (p : Provider) : Provider :=
  {| user := user p; isLoading := isLoading p;
     isPasswordUpdateFlow := isPasswordUpdateFlow p; toasts := toasts p;
     console := console p; pushes := pushes p; now := now p;
     timers := ts; next_tid := next_tid p;
     isProcessingPasswordUpdate := isProcessingPasswordUpdate p;
     timeoutId := timeoutId p |}.

Definition set_isProcessingPasswordUpdate (b : bool) (p : Provider) : Provider :=
  {| user := user p; isLoading := isLoading p;
     isPasswordUpdateFlow := isPasswordUpdateFlow p; toasts := toasts p;
     console := console p; pushes := pushes p; now := now p;
     timers := timers p; next_tid := next_tid p;
     isProcessingPasswordUpdate := b;
     timeoutId := timeoutId p |}.

Definition set_timeoutId (i : option nat) (p : Provider) : Provider :=
  {| user := user p; isLoading := isLoading p;
     isPasswordUpdateFlow := isPasswordUpdateFlow p; toasts := toasts p;
     console := console p; pushes := pushes p; now := now p;
     timers := timers p; next_tid := next_tid p;
     isProcessingPasswordUpdate := isProcessingPasswordUpdate p;
     timeoutId := i |}.

(** [setTimeout(a, delay)]: a fresh id, due [delay] ms from now. *)
Definition setTimeout (a : TimerAction) (delay : Z) (p : Provider)
  : nat * Provider :=
  (next_tid p,
   {| user := user p; isLoading := isLoading p;
      isPasswordUpdateFlow := isPasswordUpdateFlow p; toasts := toasts p;
      console := console p; pushes := pushes p; now := now p;
      timers := timers p ++ [{| tid := next_tid p; due := now p + delay;
                                action := a |}];
      next_tid := S (next_tid p);
      isProcessingPasswordUpdate := isProcessingPasswordUpdate p;
      timeoutId := timeoutId p |}).

(** [clearTimeout(id)]; [clearTimeout(undefined)] does nothing. *)
Definition clearTimeout (i : option nat) (p : Provider) : Provider :=
  match i with
  | Some n => set_timers (filter (fun t => tid t ≠ n) (timers p)) p
  | None => p
  end.

(** The provider right after mounting. *)
Definition mounted (t0 : Z) : Provider :=
  {| user := None; isLoading := true; isPasswordUpdateFlow := false;
     toasts := []; console := []; pushes := []; now := t0; timers := [];
     next_tid := O; isProcessingPasswordUpdate := false; timeoutId := None |}.

Definition do_local {X} (op : LocalOp X) (p : Provider) : X * Provider :=
  match op in LocalOp X return X * Provider with
  | DateNow => (now p, p)
  | SetUser u => (tt, set_user u p)
  | SetIsLoading b => (tt, set_isLoading b p)
  | SetIsPasswordUpdateFlow b => (tt, set_isPasswordUpdateFlow b p)
  | Toast t => (tt, add_toast t p)
  | Console l msg => (tt, add_console l msg p)
  | RouterPush path => (tt, add_push path p)
  | SetTimeout a delay => setTimeout a delay p
  end.

(** ** The Supabase client *)

(** Any implementation of the client: a state and, for each call, an
    answer (a value or a thrown exception) and a next state. *)
Class Supabase (S : Type) := {
  respond : forall X, RemoteOp X -> S -> Outcome X * S;
}.
Arguments respond {S _ X} _ _.

(** One remote call with its answer, as recorded by [run]. *)
Inductive Call :=
| CRefreshSession (o : Outcome AuthResp)
| CSignOut (o : Outcome (option SbError))
| CGetSession (o : Outcome AuthResp)
| CSignInWithPassword (email_ password_ : string) (o : Outcome AuthResp)
| CUpdateUser (password_ : string) (o : Outcome (option SbError))
| CSelectSingle (table auth_id : string) (o : Outcome (QueryResp Row))
| CInsertSelectSingle (table : string) (row : NewRow)
    (o : Outcome (QueryResp Row))
| CSelectApplicant (auth_id : string) (o : Outcome (QueryResp Applicant))
| CUpdateUsername (table auth_id : string) (username_ : option string)
    (o : Outcome (option SbError)).

Definition log_call {X} (op : RemoteOp X) : Outcome X -> Call :=
  match op in RemoteOp X return Outcome X -> Call with
  | RefreshSession => CRefreshSession
  | SignOut => CSignOut
  | GetSession => CGetSession
  | SignInWithPassword e p => CSignInWithPassword e p
  | UpdateUser p => CUpdateUser p
  | SelectSingle t i => CSelectSingle t i
  | InsertSelectSingle t r => CInsertSelectSingle t r
  | SelectApplicant i => CSelectApplicant i
  | UpdateUsername t i u => CUpdateUsername t i u
  end.

(** The provider together with the client it talks to; [calls] is the
    record of the remote calls made so far, [passes] the sessions the
    debounce callback has handed to [handleSession]. *)
Record World (S : Type) := {
  svc : S;
  prov : Provider;
  calls : list Call;
  passes : list (option Session);
}.
Arguments svc {S} _.
Arguments prov {S} _.
Arguments calls {S} _.
Arguments passes {S} _.

Definition set_prov {S} (p : Provider) (w : World S) : World S :=
  {| svc := svc w; prov := p; calls := calls w; passes := passes w |}.

Definition answered {S X} (op : RemoteOp X) (o : Outcome X) (s' : S)
  (w : World S) : World S :=
  {| svc := s'; prov := prov w; calls := calls w ++ [log_call op o];
     passes := passes w |}.

Definition add_pass {S} (s : option Session) (w : World S) : World S :=
  {| svc := svc w; prov := prov w; calls := calls w;
     passes := passes w ++ [s] |}.

(** Running a program to completion: local effects act on the provider,
    remote calls are answered by the client. *)
Fixpoint run {S} `{Supabase S} {A} (m : Prog A) (w : World S)
  : Outcome A * World S :=
  match m with
  | Ret a => (Returned a, w)
  | Throw e => (Threw e, w)
  | Do op k =>
      let '(x, p') := do_local op (prov w) in run (k x) (set_prov p' w)
  | Await op k =>
      let '(o, s') := respond op (svc w) in run (k o) (answered op o s' w)
  end.

(** ** [handleSession]: the reconciliation pass *)

(** [console.log], [console.warn], [console.error]: the message (the
    first argument) is kept, the values printed after it are not. *)
Definition log_ (lvl : Level) (msg : string) : Prog unit :=
  perform (Console lvl msg).

Definition toast (ttl descr : string) (destr : bool) : Prog unit :=
  perform (Toast {| title := ttl; description := descr;
                    destructive := destr |}).

(** The temporary profile built at lines 192-198, 235-241 and 317-323. *)
Definition tempUser (supabaseUser : User) : AuthenticatedUser :=
  {| id := u_id supabaseUser;
     email := u_email supabaseUser;
     voterId := None;
     precinct := None;
     username := or_empty (u_meta_username supabaseUser);
     role := "public";
     registrationStatus := None |}.

(** The user built from a row that was just created (lines 219-225) or
    re-fetched after a duplicate-key conflict (lines 180-186). *)
Definition userOfRow (supabaseUser : User) (r : Row) : AuthenticatedUser :=
  {| id := u_id supabaseUser;
     email := u_email supabaseUser;
     voterId := None;
     precinct := None;
     username := or_empty (row_username r);
     role := row_role r;
     registrationStatus := None |}.

(** [session.expires_at && session.expires_at < Date.now() / 1000]:
    [expires_at] is in seconds, the clock in milliseconds; the comparison
    is taken over the rationals. *)
Definition isExpired (expires_at : Z) (now_ms : Z) : bool :=
  negb (expires_at =? 0) && (expires_at * 1000 <? now_ms).

(** Lines 117-134.  The result tells whether the pass goes on; [false]
    stands for the early [return null] of line 126. *)
Definition checkExpiry (session : Session) : Prog bool :=
  match s_expires_at session with
  | None => Ret true
  | Some expires_at =>
      t <- perform DateNow ;;
      if isExpired expires_at t then
        log_ WarnLevel "Session expired, attempting to refresh..." ;;;
        refreshed <- await RefreshSession ;;
        match ar_error refreshed with
        | Some refreshError =>
            log_ ErrorLevel "Failed to refresh session:" ;;;
            _ <- await SignOut ;;
            perform (SetUser None) ;;;
            Ret false
        | None =>
            match ar_session refreshed with
            | Some _ => log_ LogLevel "Session refreshed successfully" ;;;
                        Ret true
            | None => Ret true
            end
        end
      else Ret true
  end.

(** Lines 262-300: the best-effort read of the applicant record, inside
    its own [try]/[catch].  Returns [registrationStatus], [voterId] and
    [precinct]. *)
Definition fetchRegistration (supabaseUser : User)
  : Prog (option string * option string * option string) :=
  try_catch
    (applicant <- await (SelectApplicant (u_id supabaseUser)) ;;
     match q_error applicant with
     | Some applicantError =>
         log_ WarnLevel "Error fetching applicant data:" ;;;
         Ret (None, None, None)
     | None =>
         match q_data applicant with
         | Some applicantData =>
             let applications := rel_to_list (application applicantData) in
             let registrationApp :=
               List.find
                 (fun app => String.eqb (application_type app) "register")
                 applications in
             let voterRecord :=
               rel_first (applicant_voter_record applicantData) in
             Ret (or_null (registrationApp ≫= status),
                  voterRecord ≫= voter_id,
                  voterRecord ≫= precinct_number)
         | None => Ret (None, None, None)
         end
     end)
    (fun applicantError =>
       log_ LogLevel "No applicant data found (this is normal for new users)" ;;;
       Ret (None, None, None)).

(** Lines 137-326. *)
Definition reconcileProfile (isPasswordUpdateFlow_ : bool)
  (supabaseUser : User) : Prog (option AuthenticatedUser) :=
  fetched <- await (SelectSingle "app_user" (u_id supabaseUser)) ;;
  log_ LogLevel "Fetch result:" ;;;
  match q_error fetched with
  | Some fetchError =>
      if String.eqb (err_code fetchError) "PGRST116" then
        log_ WarnLevel
          ("No user profile found for auth_id: " +:+ u_id supabaseUser
           +:+ ". Creating user profile...") ;;;
        created <- await (InsertSelectSingle "app_user"
                      {| nr_auth_id := u_id supabaseUser;
                         nr_email := u_email supabaseUser;
                         nr_username := or_empty (u_meta_username supabaseUser);
                         nr_role := "public" |}) ;;
        match q_error created with
        | Some createError =>
            if String.eqb (err_code createError) "23505" then
              log_ LogLevel "User profile already exists (created by concurrent request), fetching existing profile..." ;;;
              existing <- await (SelectSingle "app_user" (u_id supabaseUser)) ;;
              match q_error existing with
              | Some refetchError =>
                  log_ ErrorLevel "Error fetching existing user profile:" ;;;
                  perform (SetUser None) ;;;
                  Ret None
              | None =>
                  log_ LogLevel "Found existing user profile:" ;;;
                  existingUser <- deref (q_data existing) ;;
                  let existingAuthUser := userOfRow supabaseUser existingUser in
                  perform (SetUser (Some existingAuthUser)) ;;;
                  Ret (Some existingAuthUser)
              end
            else if String.eqb (err_code createError) "42501" then
              log_ LogLevel "RLS policy violation during auth transition - using temporary user profile" ;;;
              perform (SetUser (Some (tempUser supabaseUser))) ;;;
              Ret (Some (tempUser supabaseUser))
            else
              log_ ErrorLevel "Error creating user profile:" ;;;
              (if negb isPasswordUpdateFlow_
               then toast "Error"
                      "Could not create user profile. Please try again." true
               else Ret tt) ;;;
              perform (SetUser None) ;;;
              Ret None
        | None =>
            log_ LogLevel "Created user profile:" ;;;
            createdUser <- deref (q_data created) ;;
            let newUser := userOfRow supabaseUser createdUser in
            perform (SetUser (Some newUser)) ;;;
            Ret (Some newUser)
        end
      else
        log_ WarnLevel "Error fetching user profile (possibly during auth transition):" ;;;
        if String.eqb (err_code fetchError) "406"
           || includes "Not Acceptable" (err_message fetchError) then
          log_ LogLevel "406 error during auth transition - using temporary user profile" ;;;
          perform (SetUser (Some (tempUser supabaseUser))) ;;;
          Ret (Some (tempUser supabaseUser))
        else
          log_ ErrorLevel "Error fetching user profile:" ;;;
          (if negb isPasswordUpdateFlow_
           then toast "Error" "Could not fetch user profile." true
           else Ret tt) ;;;
          perform (SetUser None) ;;;
          Ret None
  | None =>
      match q_data fetched with
      | Some appUser =>
          reg <- fetchRegistration supabaseUser ;;
          let '(registrationStatus_, voterId_, precinct_) := reg in
          let authenticatedUser :=
            {| id := u_id supabaseUser;
               email := u_email supabaseUser;
               voterId := voterId_;
               precinct := precinct_;
               username := or_empty (or_else (row_username appUser)
                                       (u_meta_username supabaseUser));
               role := row_role appUser;
               registrationStatus := registrationStatus_ |} in
          log_ LogLevel "Final authenticated user:" ;;;
          perform (SetUser (Some authenticatedUser)) ;;;
          Ret (Some authenticatedUser)
      | None =>
          perform (SetUser (Some (tempUser supabaseUser))) ;;;
          Ret (Some (tempUser supabaseUser))
      end
  end.

(** Lines 110-341.  [isPasswordUpdateFlow_] is the value of the state cell
    captured by the closure ([useCallback] with dependencies [[toast]]). *)
Definition handleSession (isPasswordUpdateFlow_ : bool)
  (session : option Session) : Prog (option AuthenticatedUser) :=
  match session with
  | Some sess =>
      let supabaseUser := s_user sess in
      try_catch
        (log_ LogLevel "Processing session for user:" ;;;
         proceed <- checkExpiry sess ;;
         if proceed : bool
         then reconcileProfile isPasswordUpdateFlow_ supabaseUser
         else Ret None)
        (fun unexpectedError =>
           log_ ErrorLevel "An unexpected error occurred during session handling:" ;;;
           toast "Unexpected Error"
             "An unexpected error occurred while loading your profile." true ;;;
           perform (SetUser None) ;;;
           Ret None)
  | None =>
      perform (SetUser None) ;;;
      Ret None
  end.

(** ** The other operations of the provider *)

(** Lines 531-544. *)
Definition handleRefreshTokenError : Prog unit :=
  log_ LogLevel "Handling refresh token error - clearing session" ;;;
  try_catch
    (_ <- await SignOut ;;
     perform (SetUser None) ;;;
     toast "Session Expired" "Please log in again." true)
    (fun error => log_ ErrorLevel "Error during sign out:").

(** Lines 487-508.  [captured] is the flag held by the [handleSession]
    closure that [login] calls. *)
Definition login (captured : bool) (email_ passwordAttempt : string)
  : Prog unit :=
  perform (SetIsLoading true) ;;;
  signedIn <- await (SignInWithPassword email_ passwordAttempt) ;;
  match ar_error signedIn with
  | Some error =>
      toast "Login Failed" (err_message error) true ;;;
      perform (SetIsLoading false)
  | None =>
      match ar_session signedIn with
      | Some session =>
          userData <- handleSession captured (Some session) ;;
          toast "Login Successful" "You have been logged in." false ;;;
          let redirectTo :=
            match userData with
            | Some u => if String.eqb (role u) "officer"
                        then "/dashboard" else "/public/home"
            | None => "/public/home"
            end in
          perform (RouterPush redirectTo)
      | None => Ret tt
      end ;;;
      perform (SetIsLoading false)
  end.

(** Lines 416-464.  [user_] is the [user] cell read by the closure.  The
    [catch] block reads [error.message] without [?.]: on a thrown [null]
    or [undefined] that read throws, after the log and the reset of the
    flag and before the notification. *)
Definition updateUserPassword (user_ : option AuthenticatedUser)
  (oldPass newPass : string) : Prog bool :=
  match user_ with
  | None => Ret false
  | Some u =>
      try_catch
        (perform (SetIsPasswordUpdateFlow true) ;;;
         reauthenticated <-
           (if String.eqb oldPass "" then Ret true
            else
              signedIn <- await (SignInWithPassword (email u) oldPass) ;;
              match ar_error signedIn with
              | Some signInError =>
                  toast "Incorrect Old Password" (err_message signInError)
                    true ;;;
                  Ret false
              | None => Ret true
              end) ;;
         if reauthenticated : bool then
           updated <- await (UpdateUser newPass) ;;
           match updated with
           | Some error =>
               toast "Update Failed" (err_message error) true ;;;
               Ret false
           | None =>
               toast "Password Updated"
                 "Your password has been successfully updated." false ;;;
               _ <- perform (SetTimeout ClearPasswordUpdateFlow 3000) ;;
               Ret true
           end
         else Ret false)
        (fun error =>
           log_ ErrorLevel "Error updating password:" ;;;
           perform (SetIsPasswordUpdateFlow false) ;;;
           match error with
           | Nullish => Throw TypeError
           | Thrown message =>
               toast "Update Failed"
                 (match or_null message with
                  | Some m => m
                  | None => "An unexpected error occurred."
                  end) true ;;;
               Ret false
           end)
  end.

(** Lines 466-484.  [handleSession(session)] is called without [await]
    (line 480): the pass runs to its first [await] within the call, then
    the notification is shown and the function returns.  The result is
    the boolean the function resolves to, together with the pass it has
    left running, if it started one. *)
Definition updateUserProfile (captured : bool)
  (user_ : option AuthenticatedUser) (updates_username : option string)
  : Prog (bool * option (Prog (option AuthenticatedUser))) :=
  match user_ with
  | None => Ret (false, None)
  | Some u =>
      updated <- await (UpdateUsername "profile" (id u) updates_username) ;;
      match updated with
      | Some error =>
          toast "Error" "Failed to update profile." true ;;;
          Ret (false, None)
      | None =>
          current <- await GetSession ;;
          pass <- start (handleSession captured (ar_session current)) ;;
          toast "Success" "Your profile has been updated." false ;;;
          Ret (true, Some pass)
      end
  end.

(** The state once a pass left running has run to its end. *)
Definition left_running {S} `{Supabase S} {A B}
  (r : Outcome (B * option (Prog A)) * World S) : World S :=
  match fst r with
  | Returned (_, Some pass) => snd (run pass (snd r))
  | _ => snd r
  end.

(** ** The auth-state subscriber and the event loop *)

(** [AuthChangeEvent] of supabase-js. *)
Inductive AuthChangeEvent :=
| INITIAL_SESSION
| SIGNED_IN
| SIGNED_OUT
| TOKEN_REFRESHED
| USER_UPDATED
| PASSWORD_RECOVERY
| MFA_CHALLENGE_VERIFIED.

(** The events that reach the debounce (lines 582-595). *)
Definition debounced_event (ev : AuthChangeEvent) : bool :=
  match ev with
  | TOKEN_REFRESHED | USER_UPDATED | SIGNED_OUT => false
  | _ => true
  end.

(** Lines 552-596: the callback given to [onAuthStateChange].  It has no
    [await], so it runs to its end when the event is delivered. *)
Definition onAuthStateChange (event : AuthChangeEvent)
  (session : option Session) (p : Provider) : Provider :=
  let p := add_console LogLevel "Auth state change:" p in
  match event with
  | TOKEN_REFRESHED =>
      add_console LogLevel "Token refreshed successfully" p
  | USER_UPDATED =>
      let p := add_console LogLevel "User updated - likely password change" p in
      let p := set_isProcessingPasswordUpdate true p in
      snd (setTimeout ClearProcessingPasswordUpdate 2000 p)
  | SIGNED_OUT =>
      let p := add_console LogLevel "User signed out" p in
      if isProcessingPasswordUpdate p then
        add_console LogLevel
          "Sign out detected during password update - ignoring" p
      else set_user None p
  | _ =>
      let p :=
        match event with
        | SIGNED_IN =>
            if isProcessingPasswordUpdate p then
              set_isProcessingPasswordUpdate false
                (add_console LogLevel
                   "User signed back in after password update" p)
            else p
        | _ => p
        end in
      let p := clearTimeout (timeoutId p) p in
      let '(i, p) := setTimeout (DebouncedHandleSession session) 100 p in
      set_timeoutId (Some i) p
  end.

(** [error?.message?.includes('refresh') || error?.message?.includes('token')]. *)
Definition mentions_refresh_or_token (error : Exn) : bool :=
  match exn_message error with
  | Some m => includes "refresh" m || includes "token" m
  | None => false
  end.

(** Lines 584-595: the debounced callback.  [processing] is the value of
    [isProcessingPasswordUpdate] when the callback runs. *)
Definition debouncedCallback (captured processing : bool)
  (session : option Session) : Prog unit :=
  try_catch
    (_ <- handleSession captured session ;; Ret tt)
    (fun error =>
       log_ ErrorLevel "Error in auth state change handler:" ;;;
       if negb processing && mentions_refresh_or_token error
       then handleRefreshTokenError
       else Ret tt).

Section EventLoop.
Context {S : Type} `{Supabase S}.

(** Running a timer callback.  The remote calls of a reconciliation
    pass are answered within the same instant. *)
Definition fire (captured : bool) (a : TimerAction) (w : World S)
  : World S :=
  match a with
  | ClearPasswordUpdateFlow =>
      set_prov (set_isPasswordUpdateFlow false (prov w)) w
  | ClearProcessingPasswordUpdate =>
      set_prov (set_isProcessingPasswordUpdate false (prov w)) w
  | DebouncedHandleSession session =>
      snd (run (debouncedCallback captured
                  (isProcessingPasswordUpdate (prov w)) session)
             (add_pass session w))
  end.

(** Timers fire in the order of their due times, earlier-set first
    among equals. *)
Fixpoint insert_timer (t : Timer) (ts : list Timer) : list Timer :=
  match ts with
  | [] => [t]
  | t' :: ts' =>
      if due t <? due t' then t :: ts else t' :: insert_timer t ts'
  end.

Definition sort_timers (ts : list Timer) : list Timer :=
  foldr (fun t acc => insert_timer t acc) [] ts.

Definition fire_at (captured : bool) (w : World S) (t : Timer) : World S :=
  fire captured (action t) (set_prov (set_now (due t) (prov w)) w).

(** The clock moves on by [dt]: every timer that falls due on the way
    fires, at its due time.  No callback of this provider sets or
    clears a timer, so one sweep is the whole of it. *)
Definition advance (captured : bool) (dt : Z) (w : World S) : World S :=
  let t_end := now (prov w) + dt in
  let due_now := filter (fun t => due t ≤ t_end) (timers (prov w)) in
  let later := filter (fun t => ¬ (due t ≤ t_end)) (timers (prov w)) in
  let w := set_prov (set_timers later (prov w)) w in
  let w := fold_left (fire_at captured) (sort_timers due_now) w in
  set_prov (set_now t_end (prov w)) w.

(** Delivery of an auth-state change notification. *)
Definition deliver (event : AuthChangeEvent) (session : option Session)
  (w : World S) : World S :=
  set_prov (onAuthStateChange event session (prov w)) w.
End EventLoop.

(** ** The route guard *)

Definition publicUserAuthenticatedPaths : list string :=
  [ "/public/home";
    "/public/track-status";
    "/public/application-submitted";
    "/public/profile";
    "/public/faq";
    "/public/schedule-biometrics" ].

Definition publicUnauthenticatedPaths : list string :=
  [ "/auth";
    "/";
    "/landing";
    "/public/forgot-password";
    "/public/reset-password" ].

(** [paths.includes(pathname)]. *)
Definition array_includes (paths : list string) (pathname : string) : bool :=
  existsb (String.eqb pathname) paths.

(** Lines 59-63. *)
Definition isPublicPath (pathname : string) : bool :=
  array_includes publicUnauthenticatedPaths pathname
  || includes "/reset-password" pathname
  || includes "/forgot-password" pathname.

(** Lines 617-634: the route to push, if any. *)
Definition routeGuard (isLoading_ : bool) (user_ : option AuthenticatedUser)
  (pathname : string) : option string :=
  if isLoading_ then None
  else
    match user_ with
    | Some u =>
        if String.eqb (role u) "officer" && startsWith "/public/" pathname
        then Some "/dashboard"
        else if String.eqb (role u) "public" && startsWith "/dashboard" pathname
        then Some "/public/home"
        else None
    | None =>
        if negb (array_includes publicUserAuthenticatedPaths pathname)
           && negb (isPublicPath pathname)
        then Some "/auth"
        else None
    end.

(** ** Two implementations of the client *)

(** *** A scripted client: the answers are given in advance, in order. *)

Inductive Answer :=
| AnsAuth (o : Outcome AuthResp)
| AnsErr (o : Outcome (option SbError))
| AnsRow (o : Outcome (QueryResp Row))
| AnsApplicant (o : Outcome (QueryResp Applicant)).

Definition offScript : Exn := Thrown (Some "Failed to fetch").

Definition scripted_answer {X} (op : RemoteOp X) (a : Answer) : Outcome X :=
  match op in RemoteOp X return Outcome X with
  | RefreshSession | GetSession | SignInWithPassword _ _ =>
      match a with AnsAuth o => o | _ => Threw offScript end
  | SignOut | UpdateUser _ | UpdateUsername _ _ _ =>
      match a with AnsErr o => o | _ => Threw offScript end
  | SelectSingle _ _ | InsertSelectSingle _ _ =>
      match a with AnsRow o => o | _ => Threw offScript end
  | SelectApplicant _ =>
      match a with AnsApplicant o => o | _ => Threw offScript end
  end.

#[export] Instance Scripted : Supabase (list Answer) := {
  respond X op script :=
    match script with
    | [] => (Threw offScript, [])
    | a :: rest => (scripted_answer op a, rest)
    end;
}.

(** *** An in-memory profile store: tables keyed by [auth_id], with the
    unique key on [auth_id] that makes a second insert fail with 23505,
    and [.single()] failing with PGRST116 when there is no row. *)

Record Mem := {
  tables : gmap string (gmap string NewRow);
  applicants : gmap string Applicant;
  current : option Session;
}.

Definition table_of (m : Mem) (t : string) : gmap string NewRow :=
  default ∅ (tables m !! t).

Definition set_table (t : string) (rows : gmap string NewRow) (m : Mem) : Mem :=
  {| tables := <[t := rows]> (tables m);
     applicants := applicants m;
     current := current m |}.

Definition selected (r : NewRow) : Row :=
  {| row_role := nr_role r; row_username := Some (nr_username r) |}.

Definition no_rows : SbError :=
  {| err_code := "PGRST116";
     err_message := "JSON object requested, multiple (or no) rows returned" |}.

Definition duplicate_key : SbError :=
  {| err_code := "23505";
     err_message := "duplicate key value violates unique constraint" |}.

Definition mem_respond {X} (op : RemoteOp X) (m : Mem) : Outcome X * Mem :=
  match op in RemoteOp X return Outcome X * Mem with
  | RefreshSession | GetSession | SignInWithPassword _ _ =>
      (Returned {| ar_session := current m; ar_error := None |}, m)
  | SignOut =>
      (Returned None,
       {| tables := tables m; applicants := applicants m; current := None |})
  | UpdateUser _ => (Returned None, m)
  | SelectSingle t i =>
      match table_of m t !! i with
      | Some r =>
          (Returned {| q_data := Some (selected r); q_error := None |}, m)
      | None =>
          (Returned {| q_data := None; q_error := Some no_rows |}, m)
      end
  | InsertSelectSingle t r =>
      match table_of m t !! nr_auth_id r with
      | Some _ =>
          (Returned {| q_data := None; q_error := Some duplicate_key |}, m)
      | None =>
          (Returned {| q_data := Some (selected r); q_error := None |},
           set_table t (<[nr_auth_id r := r]> (table_of m t)) m)
      end
  | SelectApplicant i =>
      (Returned {| q_data := applicants m !! i; q_error := None |}, m)
  | UpdateUsername t i u =>
      match u with
      | Some name =>
          (Returned None,
           set_table t
             (alter (fun r => {| nr_auth_id := nr_auth_id r;
                                 nr_email := nr_email r;
                                 nr_username := name;
                                 nr_role := nr_role r |}) i (table_of m t)) m)
      | None => (Returned None, m)
      end
  end.

#[export] Instance InMemory : Supabase Mem := {
  respond X op m := mem_respond op m;
}.

(** A world around a freshly mounted provider. *)
Definition world {S} (s : S) (t0 : Z) : World S :=
  {| svc := s; prov := mounted t0; calls := []; passes := [] |}.

(** ** Reading the record of remote calls *)

(** The error code of an answer, if the answer carries an error. *)
Definition error_code {T} (o : Outcome (QueryResp T)) : option string :=
  match o with
  | Returned r => err_code <$> q_error r
  | Threw _ => None
  end.

(** The data of an answer that carries no error. *)
Definition row_of {T} (o : Outcome (QueryResp T)) : option T :=
  match o with
  | Returned r =>
      match q_error r with
      | None => q_data r
      | Some _ => None
      end
  | Threw _ => None
  end.

(** Answers to the reads of the profile table, in order. *)
Definition profile_fetches (cs : list Call)
  : list (Outcome (QueryResp Row)) :=
  omap (fun c =>
          match c with
          | CSelectSingle t _ o =>
              if String.eqb t "app_user" then Some o else None
          | _ => None
          end) cs.

(** Answers to the inserts into the profile table, in order. *)
Definition profile_inserts (cs : list Call)
  : list (Outcome (QueryResp Row)) :=
  omap (fun c =>
          match c with
          | CInsertSelectSingle t _ o =>
              if String.eqb t "app_user" then Some o else None
          | _ => None
          end) cs.

(** The calls that ask the store to write. *)
Definition is_write (c : Call) : bool :=
  match c with
  | CInsertSelectSingle _ _ _ | CUpdateUsername _ _ _ _ => true
  | _ => false
  end.

Definition writes (cs : list Call) : list Call := List.filter is_write cs.

Definition is_refresh (c : Call) : bool :=
  match c with
  | CRefreshSession _ => true
  | _ => false
  end.

Definition refresh_attempts (cs : list Call) : nat :=
  length (List.filter is_refresh cs).

(** The value a call threw, if it threw. *)
Definition thrown_value (c : Call) : option Exn :=
  match c with
  | CRefreshSession (Threw e) | CSignOut (Threw e) | CGetSession (Threw e)
  | CSignInWithPassword _ _ (Threw e) | CUpdateUser _ (Threw e)
  | CSelectSingle _ _ (Threw e) | CInsertSelectSingle _ _ (Threw e)
  | CSelectApplicant _ (Threw e) | CUpdateUsername _ _ _ (Threw e) => Some e
  | _ => None
  end.




(** A program is quiet when it sets no timer, pushes no route and leaves
    [isLoading] and [isPasswordUpdateFlow] alone. *)
Definition quiet_op {X} (op : LocalOp X) : bool :=
  match op with
  | DateNow | SetUser _ | Toast _ | Console _ _ => true
  | _ => false
  end.

Inductive Quiet {A} : Prog A -> Prop :=
| Quiet_Ret a : Quiet (Ret a)
| Quiet_Throw e : Quiet (Throw e)
| Quiet_Do {X} (op : LocalOp X) k :
    quiet_op op = true -> (forall x, Quiet (k x)) -> Quiet (Do op k)
| Quiet_Await {X} (op : RemoteOp X) k :
    (forall o, Quiet (k o)) -> Quiet (Await op k).

(** ** Sample data *)

Definition ana : User :=
  {| u_id := "7f3c"; u_email := "ana@example.ph";
     u_meta_username := Some "ana" |}.

(** A session with no expiry, one that expired at second 1000, and one
    whose [expires_at] is 0. *)
Definition ana_session : Session :=
  {| s_user := ana; s_expires_at := None |}.

Definition ana_expired : Session :=
  {| s_user := ana; s_expires_at := Some 1000 |}.

Definition ana_epoch : Session :=
  {| s_user := ana; s_expires_at := Some 0 |}.

Definition ana_row : Row :=
  {| row_role := "public"; row_username := Some "ana" |}.

Definition ana_officer_row : Row :=
  {| row_role := "officer"; row_username := Some "ana" |}.

Definition ana_new_row : NewRow :=
  {| nr_auth_id := "7f3c"; nr_email := "ana@example.ph";
     nr_username := "ana"; nr_role := "public" |}.

Definition found (r : Row) : Answer :=
  AnsRow (Returned {| q_data := Some r; q_error := None |}).

Definition failed (code msg : string) : Answer :=
  AnsRow (Returned {| q_data := None;
                      q_error := Some {| err_code := code;
                                         err_message := msg |} |}).

Definition no_applicant : Answer :=
  AnsApplicant (Returned {| q_data := None; q_error := None |}).

Definition permission_denied : Answer :=
  failed "42501" "new row violates row-level security policy".

Definition refresh_failed : Answer :=
  AnsAuth (Returned {| ar_session := None;
                       ar_error := Some {| err_code := "refresh_token_not_found";
                                           err_message := "Invalid Refresh Token" |} |}).

Definition no_profile : Answer :=
  failed "PGRST116" "JSON object requested, multiple (or no) rows returned".

(** The answers met by a pass that finds an officer's profile. *)
Definition officer_script : list Answer := [found ana_officer_row; no_applicant].

(** The answers met by the pass that wins the race to create the profile
    and by the pass that loses it. *)
Definition creator_script : list Answer := [no_profile; found ana_row].

Definition loser_script : list Answer :=
  [no_profile;
   failed "23505" "duplicate key value violates unique constraint";
   found ana_row].

Definition denied_script : list Answer := [no_profile; permission_denied].

Definition refresh_failed_script : list Answer :=
  [refresh_failed; AnsErr (Returned None)].




(** A clock reading of November 2023, in milliseconds. *)
Definition some_day : Z := 1700000000000.

(** ** The routes, in the words of the access rules *)

(** [s] is [p] followed by something. *)
Definition begins_with (p s : string) : Prop :=
  exists rest, s = p +:+ rest.

(** [sub] occurs somewhere in [s]. *)
Definition has_substring (sub s : string) : Prop :=
  exists pre post, s = pre +:+ sub +:+ post.

(** The routes open to a visitor who is not signed in: the two lists, by
    exact path, and any path that mentions the password-reset or
    forgot-password pages. *)
Definition on_allow_list (pathname : string) : Prop :=
  In pathname (publicUserAuthenticatedPaths ++ publicUnauthenticatedPaths)
  \/ has_substring "/reset-password" pathname
  \/ has_substring "/forgot-password" pathname.

(** ** A store with both a [profile] and an [app_user] table *)

Definition ana_user : AuthenticatedUser := userOfRow ana ana_row.

Definition two_tables : Mem :=
  {| tables := {[ "app_user" := {[ "7f3c" := ana_new_row ]};
                  "profile" := {[ "7f3c" := ana_new_row ]} ]};
     applicants := ∅;
     current := Some ana_session |}.

Definition signed_in {S} (s : S) (t0 : Z) : World S :=
  set_prov (set_isLoading false (set_user (Some ana_user) (mounted t0)))
    (world s t0).


Definition loginFailedToast (error : SbError) : ToastMsg :=
  {| title := "Login Failed"; description := err_message error;
     destructive := true |}.

Definition login_script : list Answer :=
  [AnsAuth (Returned {| ar_session := Some ana_session; ar_error := None |});
   found ana_officer_row; no_applicant].

Definition login_refused_script : list Answer :=
  [AnsAuth (Returned {| ar_session := None;
                        ar_error := Some {| err_code := "invalid_credentials";
                                            err_message := "Invalid login credentials" |} |})].

(** ** Pending timers and bursts of notifications *)

(** The pending debounce timers: id, due time and session. *)
Definition pending_of (t : Timer) : option (nat * Z * option Session) :=
  match action t with
  | DebouncedHandleSession s => Some (tid t, due t, s)
  | _ => None
  end.

Definition pending (ts : list Timer) : list (nat * Z * option Session) :=
  omap pending_of ts.

(** Any pending debounce timer is the one [timeoutId] remembers. *)
Definition debounce_inv (p : Provider) : Prop :=
  forall i d s, In (i, d, s) (pending (timers p)) -> timeoutId p = Some i.

Definition is_reset (t : Timer) : bool :=
  match action t with
  | ClearProcessingPasswordUpdate => true
  | _ => false
  end.

(** A notification with the time elapsed since the one before it. *)
Definition Notification : Type := Z * AuthChangeEvent * option Session.

Section Bursts.
Context {S : Type} `{Supabase S}.

Fixpoint deliver_burst (captured : bool) (ns : list Notification)
  (w : World S) : World S :=
  match ns with
  | [] => w
  | (elapsed, event, session) :: ns' =>
      deliver_burst captured ns'
        (deliver event session (advance captured elapsed w))
  end.
End Bursts.

(** The session that came with the last notification. *)
Definition last_session (s0 : option Session) (ns : list Notification)
  : option Session :=
  fold_left (fun _ n => snd n) ns s0.

(** A notification that reaches the debounce, less than 100 ms after the
    one before it. *)
Definition in_burst (n : Notification) : Prop :=
  0 <= fst (fst n) < 100 /\ debounced_event (snd (fst n)) = true.

Definition password_updated_script : list Answer := [AnsErr (Returned None)].

(** ** Passes taking turns at their awaits *)

Section Interleaving.
Context {S : Type} `{Supabase S}.

(** A started asynchronous function runs on, without giving way, until
    its next [await] (or its end). *)
Fixpoint settle {A} (m : Prog A) (p : Provider) : Prog A * Provider :=
  match m with
  | Do op k => let '(x, p') := do_local op p in settle (k x) p'
  | _ => (m, p)
  end.

(** The awaited call is answered and the function runs on to its next
    [await]. *)
Definition resume {A} (m : Prog A) (w : World S) : Prog A * World S :=
  match m with
  | Await op k =>
      let '(o, s') := respond op (svc w) in
      let w1 := answered op o s' w in
      let '(m', p') := settle (k o) (prov w1) in
      (m', set_prov p' w1)
  | _ => (m, w)
  end.

Definition finished {A} (m : Prog A) : bool :=
  match m with
  | Ret _ | Throw _ => true
  | _ => false
  end.

(** Every way two started functions can take turns at their [await]s,
    with the state each way ends in. *)
Fixpoint interleavings {A} (fuel : nat) (a b : Prog A) (w : World S)
  : list (Prog A * Prog A * World S) :=
  match fuel with
  | O => [(a, b, w)]
  | Datatypes.S n =>
      match finished a, finished b with
      | true, true => [(a, b, w)]
      | false, true =>
          let '(a', w') := resume a w in interleavings n a' b w'
      | true, false =>
          let '(b', w') := resume b w in interleavings n a b' w'
      | false, false =>
          (let '(a', w') := resume a w in interleavings n a' b w')
          ++ (let '(b', w') := resume b w in interleavings n a b' w')
      end
  end.

(** Two calls made one after the other, each running to its first
    [await] before the next starts. *)
Definition started {A} (fuel : nat) (a b : Prog A) (w : World S)
  : list (Prog A * Prog A * World S) :=
  let '(a', p1) := settle a (prov w) in
  let '(b', p2) := settle b p1 in
  interleavings fuel a' b' (set_prov p2 w).
End Interleaving.

Definition empty_store : Mem :=
  {| tables := ∅; applicants := ∅; current := Some ana_session |}.

Definition result_of {A} (m : Prog A) : option A :=
  match m with
  | Ret a => Some a
  | _ => None
  end.

(** Where an interleaving has ended: what each pass returned, the user
    published, the rows of the profile table, and the error codes the
    inserts were answered with. *)
Definition ending
  (c : Prog (option AuthenticatedUser) * Prog (option AuthenticatedUser)
       * World Mem) :=
  (result_of (fst (fst c)), result_of (snd (fst c)),
   user (prov (snd c)),
   map_to_list (table_of (svc (snd c)) "app_user"),
   map error_code (profile_inserts (calls (snd c)))).

(** ** The operations the provider exposes besides the above *)

(** Lines 393-396. *)
Definition logout : Prog unit :=
  _ <- await SignOut ;;
  perform (RouterPush "/auth").

(** Lines 508-528. *)
Definition refreshUser (captured : bool) : Prog unit :=
  try_catch
    (current <- await GetSession ;;
     proceed <-
       match ar_error current with
       | Some error =>
           log_ ErrorLevel "Error getting session:" ;;;
           refreshed <- await RefreshSession ;;
           match ar_error refreshed with
           | Some refreshError =>
               log_ ErrorLevel "Failed to refresh session:" ;;;
               _ <- await SignOut ;;
               perform (SetUser None) ;;;
               Ret false
           | None => Ret true
           end
       | None => Ret true
       end ;;
     if proceed : bool
     then _ <- handleSession captured (ar_session current) ;; Ret tt
     else Ret tt)
    (fun error =>
       log_ ErrorLevel "Error refreshing user:" ;;;
       perform (SetUser None)).

(** [m.finally(f)]: [f] runs whether [m] returns or throws. *)
Fixpoint finally_ {A} (m : Prog A) (f : Prog unit) : Prog A :=
  match m with
  | Ret a => f ;;; Ret a
  | Throw e => f ;;; Throw e
  | Do op k => Do op (fun x => finally_ (k x) f)
  | Await op k => Await op (fun o => finally_ (k o) f)
  end.

(** Lines 598-607: the read of the initial session when the provider
    mounts.  The callback of [.then] runs only when [getSession] returns. *)
Definition initialSession (captured : bool) : Prog unit :=
  current <- await GetSession ;;
  match ar_error current with
  | Some error =>
      log_ ErrorLevel "Error getting initial session:" ;;;
      if includes "refresh" (err_message error)
         || includes "token" (err_message error)
      then handleRefreshTokenError
      else Ret tt
  | None =>
      _ <- finally_ (handleSession captured (ar_session current))
             (perform (SetIsLoading false)) ;;
      Ret tt
  end.


Definition sessionExpiredToast : ToastMsg :=
  {| title := "Session Expired"; description := "Please log in again.";
     destructive := true |}.

(** The calls a pass for [u] may make: refresh and sign-out, reads of
    [u]'s own profile and applicant record, and the insert of [u]'s own
    profile with role 'public'. *)
Definition own_call (u : User) (c : Call) : Prop :=
  match c with
  | CRefreshSession _ | CSignOut _ => True
  | CSelectSingle t i _ => t = "app_user" /\ i = u_id u
  | CInsertSelectSingle t r _ =>
      t = "app_user"
      /\ r = {| nr_auth_id := u_id u; nr_email := u_email u;
                nr_username := or_empty (u_meta_username u);
                nr_role := "public" |}
  | CSelectApplicant i _ => i = u_id u
  | _ => False
  end.

(** ** Sign-up, password reset and e-mail confirmation

    These three functions talk to parts of the client and of the browser
    that the functions above do not use, and touch no state of the
    provider; they are embedded as programs over their own calls. *)

(** What the functions read from the environment:
    [window.location.origin] and [window.location.hash] where [window] is
    defined, [process.env.NEXT_PUBLIC_SITE_URL] and
    [process.env.NODE_ENV]. *)
Record Window := {
  origin : string;
  location_hash : string;
}.

Record Browser := {
  site_url : option string;
  node_env : option string;
  window : option Window;
}.

(** [{ data: { user }, error }] of [supabase.auth.signUp]. *)
Record SignUpResp := {
  su_user : option User;
  su_error : option SbError;
}.

Inductive SiteCall : Type -> Type :=
| SelectEmails (email_ : string) : SiteCall (QueryResp (list string))
| AuthSignUp (email_ password_ username_ emailRedirectTo : string)
    : SiteCall SignUpResp
| ResetPasswordForEmail (email_ redirectTo : string)
    : SiteCall (option SbError)
| SiteGetSession : SiteCall AuthResp.

(** What such a function does, call or effect, in the order it does it. *)
Inductive SiteEvent :=
| Shown (t : ToastMsg)
| Logged (lvl : Level) (msg : string)
| UrlCleaned
| AskedEmails (email_ : string)
| AskedSignUp (email_ password_ username_ emailRedirectTo : string)
| AskedReset (email_ redirectTo : string)
| AskedSession.

Definition event_of {X} (q : SiteCall X) : SiteEvent :=
  match q with
  | SelectEmails e => AskedEmails e
  | AuthSignUp e p u r => AskedSignUp e p u r
  | ResetPasswordForEmail e r => AskedReset e r
  | SiteGetSession => AskedSession
  end.

Inductive Site (A : Type) : Type :=
| SRet (a : A)
| SThrow (e : Exn)
| STell (ev : SiteEvent) (k : Site A)
| SAsk {X : Type} (q : SiteCall X) (k : Outcome X -> Site A).
Arguments SRet {A} _.
Arguments SThrow {A} _.
Arguments STell {A} _ _.
Arguments SAsk {A X} _ _.

Fixpoint site_bind {A B} (m : Site A) (f : A -> Site B) : Site B :=
  match m with
  | SRet a => f a
  | SThrow e => SThrow e
  | STell ev k => STell ev (site_bind k f)
  | SAsk q k => SAsk q (fun o => site_bind (k o) f)
  end.

Fixpoint site_try {A} (m : Site A) (h : Exn -> Site A) : Site A :=
  match m with
  | SRet a => SRet a
  | SThrow e => h e
  | STell ev k => STell ev (site_try k h)
  | SAsk q k => SAsk q (fun o => site_try (k o) h)
  end.

Definition tell (ev : SiteEvent) : Site unit := STell ev (SRet tt).

Definition ask {X} (q : SiteCall X) : Site X :=
  SAsk q (fun o => match o with Returned x => SRet x | Threw e => SThrow e end).

Definition show (ttl descr : string) (destr : bool) : Site unit :=
  tell (Shown {| title := ttl; description := descr; destructive := destr |}).

Declare Scope site_scope.
Delimit Scope site_scope with site.
Notation "x <- m ;; k" := (site_bind m (fun x => k))
  (at level 100, m at next level, right associativity) : site_scope.
Notation "m ;;; k" := (site_bind m (fun _ => k))
  (at level 100, right associativity) : site_scope.

(** Running against the answers of the client: the result and what was
    done. *)
Fixpoint site_run {A} (answer : forall X, SiteCall X -> Outcome X)
  (m : Site A) : Outcome A * list SiteEvent :=
  match m with
  | SRet a => (Returned a, [])
  | SThrow e => (Threw e, [])
  | STell ev k =>
      let '(r, evs) := site_run answer k in (r, ev :: evs)
  | SAsk q k =>
      let '(r, evs) := site_run answer (k (answer _ q)) in
      (r, event_of q :: evs)
  end.

(** [process.env.NEXT_PUBLIC_SITE_URL || window.location.origin]; the
    right operand is read only when the left one is falsy, and reading it
    where [window] is not defined is a ReferenceError ([None]). *)
Definition site_of (b : Browser) : option string :=
  match or_else (site_url b) None with
  | Some site => Some site
  | None => option_map origin (window b)
  end.

Definition reference_error : Exn :=
  Thrown (Some "window is not defined").

Definition development (b : Browser) : bool :=
  match node_env b with
  | Some env => String.eqb env "development"
  | None => false
  end.

(** Lines 343-391. *)
Definition signUp (b : Browser) (username_ email_ passwordAttempt : string)
  : Site unit :=
  (existing <- ask (SelectEmails email_) ;;
   match q_error existing with
   | Some checkError =>
       show "Error" "An error occurred while checking existing accounts."
         true
   | None =>
       if match q_data existing with
          | Some existingUsers => negb (Nat.eqb (length existingUsers) 0)
          | None => false
          end
       then
         show "Account Exists"
           "An account with this email already exists. Please log in instead."
           true
       else
         match site_of b with
         | None => SThrow reference_error
         | Some site =>
             created <- ask (AuthSignUp email_ passwordAttempt username_
                               (site +:+ "/auth")) ;;
             (if development b
              then tell (Logged LogLevel "Sign up redirect URL:")
              else SRet tt) ;;;
             match su_error created with
             | Some error => show "Sign Up Failed" (err_message error) true
             | None =>
                 match su_user created with
                 | Some _ =>
                     show "Sign Up Successful"
                       "Your account has been created. Please check your email to confirm your account."
                       false
                 | None => SRet tt
                 end
             end
         end
   end)%site.

(** Lines 398-414. *)
Definition sendPasswordResetEmail (b : Browser) (email_ : string)
  : Site bool :=
  (match site_of b with
   | None => SThrow reference_error
   | Some site =>
       sent <- ask (ResetPasswordForEmail email_
                      (site +:+ "/public/reset-password")) ;;
       (if development b
        then tell (Logged LogLevel "Password reset redirect URL:")
        else SRet tt) ;;;
       match sent with
       | Some error =>
           show "Error" (err_message error) true ;;;
           SRet false
       | None =>
           show "Success"
             "Password reset link sent. Please check your email." false ;;;
           SRet true
       end
   end)%site.

(** Lines 76-108. *)
Definition handleEmailConfirmation (b : Browser) : Site unit :=
  (match window b with
   | None => SRet tt
   | Some w =>
   if includes "access_token" (location_hash w) then
     site_try
       (current <- ask SiteGetSession ;;
        match ar_session current with
        | Some _ =>
            show "Email Verified!"
              "Your email has been verified successfully." false ;;;
            tell UrlCleaned
        | None => SRet tt
        end)
       (fun error =>
          tell (Logged ErrorLevel "Error handling email confirmation:") ;;;
          show "Verification Error"
            "There was an error verifying your email." true)
   else SRet tt
   end)%site.

Definition shown (evs : list SiteEvent) : list ToastMsg :=
  omap (fun ev => match ev with Shown t => Some t | _ => None end) evs.

Definition asked_sign_up (ev : SiteEvent) : bool :=
  match ev with
  | AskedSignUp _ _ _ _ => true
  | _ => false
  end.

(** How many of the notifications reach the debounce. *)
Definition debounced_count (ns : list Notification) : nat :=
  length (List.filter (fun n => debounced_event (snd (fst n))) ns).

(** ** More sample data *)

Definition session_answer : Answer :=
  AnsAuth (Returned {| ar_session := Some ana_session; ar_error := None |}).

Definition acknowledged : Answer := AnsErr (Returned None).

(** [getSession] and [refreshSession] both report an error; [signOut]
    goes through. *)
Definition give_up_script : list Answer :=
  [refresh_failed; refresh_failed; acknowledged].

(** The profile update goes through, then the session is read and the
    officer's profile found. *)
Definition profile_updated_script : list Answer :=
  [acknowledged; session_answer; found ana_officer_row; no_applicant].

(** The old password is accepted and the new one stored. *)
Definition password_changed_script : list Answer :=
  [session_answer; acknowledged].

Definition production : Browser :=
  {| site_url := Some "https://erehistro.example";
     node_env := Some "production";
     window := Some {| origin := "http://localhost:3000";
                       location_hash := "" |} |}.

(** A client that finds no profile with the e-mail and accepts
    everything. *)
Definition obliging (X : Type) (q : SiteCall X) : Outcome X :=
  match q in SiteCall X return Outcome X with
  | SelectEmails _ => Returned {| q_data := Some []; q_error := None |}
  | AuthSignUp _ _ _ _ =>
      Returned {| su_user := Some ana; su_error := None |}
  | ResetPasswordForEmail _ _ => Returned None
  | SiteGetSession =>
      Returned {| ar_session := Some ana_session; ar_error := None |}
  end.

(** Reduction of the state setters under [simpl]. *)
Arguments set_prov {S} p w /.
Arguments answered {S X} op o s' w /.
Arguments add_pass {S} s w /.
Arguments set_user u p /.
Arguments set_isLoading b p /.
Arguments set_isPasswordUpdateFlow b p /.
Arguments add_toast t p /.
Arguments add_console l msg p /.
Arguments add_push path p /.
Arguments set_now t p /.
Arguments set_timers ts p /.
Arguments set_isProcessingPasswordUpdate b p /.
Arguments set_timeoutId i p /.
Arguments setTimeout a delay p /.
Arguments do_local {X} !op p /.
Arguments log_call {X} !op /.

(** ** Properties *)

(** Case analysis on a run: every answer of the client, every test of the
    program. *)
Ltac unfold_pass :=
  unfold handleSession, checkExpiry, reconcileProfile, fetchRegistration,
    deref, toast, log_.

Ltac split_run :=
  repeat
    (simpl;
     match goal with
     | |- context [respond ?op ?s] =>
         let o := fresh "ans" in
         let s' := fresh "s" in
         destruct (respond op s) as [[o|o] s'] eqn:?;
         [ lazymatch type of o with
           | QueryResp _ => destruct o
           | AuthResp => destruct o
           | _ => idtac
           end | ]
     | |- context [match ?x with Some _ => _ | None => _ end] =>
         destruct x eqn:?
     | |- context [if ?b then _ else _] => destruct b eqn:?
     end).

(** The calls, toasts and console lines a run has added. *)
Ltac added :=
  rewrite <- ?app_assoc; simpl;
  first [reflexivity | symmetry; apply app_nil_r].

(** Turning the boolean tests met on a path into equations. *)
Ltac tests :=
  repeat
    match goal with
    | H : String.eqb _ _ = true |- _ => apply String.eqb_eq in H
    | H : String.eqb _ _ = false |- _ => apply String.eqb_neq in H
    | H : (_ || _)%bool = true |- _ => apply orb_true_iff in H
    | H : (_ || _)%bool = false |- _ =>
        apply orb_false_iff in H; destruct H
    | H : (_ && _)%bool = true |- _ =>
        apply andb_true_iff in H; destruct H
    | H : negb _ = true |- _ => apply negb_true_iff in H
    | H : negb _ = false |- _ => apply negb_false_iff in H
    end.

(** At the end of a path: the run is known, and so are the calls it made. *)
Ltac leaf Hrun Hcalls :=
  inversion Hrun; subst; clear Hrun; simpl in *;
  rewrite <- ?app_assoc in Hcalls; simpl in Hcalls;
  apply app_inv_head in Hcalls; subst; simpl in *; tests.

(** *** Running programs *)

Section Running.
Context {S : Type} `{Supabase S}.

Lemma run_bind {A B} (m : Prog A) (f : A -> Prog B) (w : World S) :
  run (bind m f) w =
  match run m w with
  | (Returned a, w') => run (f a) w'
  | (Threw e, w') => (Threw e, w')
  end.
Proof.
  revert w; induction m as [a|e|X op k IH|X op k IH]; intros w; simpl.
  - reflexivity.
  - reflexivity.
  - destruct (do_local op (prov w)) as [x p']. apply IH.
  - destruct (respond op (svc w)) as [o s']. apply IH.
Qed.

Lemma run_try_catch {A} (m : Prog A) (h : Exn -> Prog A) (w : World S) :
  run (try_catch m h) w =
  match run m w with
  | (Returned a, w') => (Returned a, w')
  | (Threw e, w') => run (h e) w'
  end.
Proof.
  revert w; induction m as [a|e|X op k IH|X op k IH]; intros w; simpl.
  - reflexivity.
  - reflexivity.
  - destruct (do_local op (prov w)) as [x p']. apply IH.
  - destruct (respond op (svc w)) as [o s']. apply IH.
Qed.
End Running.

(** *** What no program changes, and what a quiet program leaves alone *)

Section Frames.
Context {S : Type} `{Supabase S}.

(** No local effect touches the clock, the two variables of the
    subscription effect, or the record of debounced passes. *)
Lemma run_frame {A} (m : Prog A) (w : World S) :
  now (prov (snd (run m w))) = now (prov w)
  /\ isProcessingPasswordUpdate (prov (snd (run m w)))
     = isProcessingPasswordUpdate (prov w)
  /\ timeoutId (prov (snd (run m w))) = timeoutId (prov w)
  /\ passes (snd (run m w)) = passes w.
Proof.
  revert w; induction m as [a|e|X op k IH|X op k IH]; intros w; simpl;
    try tauto.
  - destruct (do_local op (prov w)) as [x p'] eqn:E; simpl.
    specialize (IH x (set_prov p' w)). simpl in IH.
    assert (now p' = now (prov w)
            /\ isProcessingPasswordUpdate p'
               = isProcessingPasswordUpdate (prov w)
            /\ timeoutId p' = timeoutId (prov w)) as (E1 & E2 & E3).
    { destruct op; simpl in E; inversion E; subst; simpl; tauto. }
    destruct IH as (I1 & I2 & I3 & I4).
    rewrite I1, I2, I3, I4. tauto.
  - destruct (respond op (svc w)) as [o s'].
    exact (IH o (answered op o s' w)).
Qed.

Lemma Quiet_bind {A B} (m : Prog A) (f : A -> Prog B) :
  Quiet m -> (forall a, Quiet (f a)) -> Quiet (bind m f).
Proof.
  intros Hm Hf; induction Hm; simpl; auto using @Quiet.
Qed.

Lemma Quiet_try_catch {A} (m : Prog A) (h : Exn -> Prog A) :
  Quiet m -> (forall e, Quiet (h e)) -> Quiet (try_catch m h).
Proof.
  intros Hm Hh; induction Hm; simpl; auto using @Quiet.
Qed.

Lemma Quiet_await {X} (op : RemoteOp X) : Quiet (await op).
Proof. constructor; intros [x|e]; constructor. Qed.

Lemma Quiet_run {A} (m : Prog A) (w : World S) :
  Quiet m ->
  timers (prov (snd (run m w))) = timers (prov w)
  /\ next_tid (prov (snd (run m w))) = next_tid (prov w)
  /\ pushes (prov (snd (run m w))) = pushes (prov w)
  /\ isLoading (prov (snd (run m w))) = isLoading (prov w)
  /\ isPasswordUpdateFlow (prov (snd (run m w)))
     = isPasswordUpdateFlow (prov w).
Proof.
  intros Hm; revert w.
  induction Hm as [a|e|X op k Hop Hk IH|X op k Hk IH]; intros w; simpl;
    try tauto.
  - destruct (do_local op (prov w)) as [x p'] eqn:E; simpl.
    specialize (IH x (set_prov p' w)). simpl in IH.
    assert (timers p' = timers (prov w)
            /\ next_tid p' = next_tid (prov w)
            /\ pushes p' = pushes (prov w)
            /\ isLoading p' = isLoading (prov w)
            /\ isPasswordUpdateFlow p' = isPasswordUpdateFlow (prov w))
      as (E1 & E2 & E3 & E4 & E5).
    { destruct op; simpl in Hop; try discriminate;
        simpl in E; inversion E; subst; simpl; tauto. }
    destruct IH as (I1 & I2 & I3 & I4 & I5).
    rewrite I1, I2, I3, I4, I5. tauto.
  - destruct (respond op (svc w)) as [o s'].
    exact (IH o (answered op o s' w)).
Qed.

Lemma handleSession_Quiet captured session :
  Quiet (handleSession captured session).
Proof.
  unfold handleSession, checkExpiry, reconcileProfile, fetchRegistration,
    deref, toast, log_, perform.
  repeat
  (first
     [ apply Quiet_try_catch | apply Quiet_bind | apply Quiet_await
     | apply Quiet_Ret | apply Quiet_Throw
     | apply Quiet_Do; [reflexivity|] | apply Quiet_Await
     | progress intros
     | match goal with
       | |- Quiet (match ?x with _ => _ end) => destruct x
       | |- Quiet (if ?b then _ else _) => destruct b
       end ]).
Qed.

Lemma handleRefreshTokenError_Quiet : Quiet handleRefreshTokenError.
Proof.
  unfold handleRefreshTokenError, toast, log_, perform.
  repeat
    (first
       [ apply Quiet_try_catch | apply Quiet_bind | apply Quiet_await
       | apply Quiet_Ret | apply Quiet_Do; [reflexivity|]
       | apply Quiet_Await | progress intros
       | match goal with
         | |- Quiet (match ?x with _ => _ end) => destruct x
         end ]).
Qed.

Lemma debouncedCallback_Quiet captured processing session :
  Quiet (debouncedCallback captured processing session).
Proof.
  unfold debouncedCallback, log_, perform.
  apply Quiet_try_catch.
  - apply Quiet_bind; [apply handleSession_Quiet | constructor].
  - intros e. apply Quiet_Do; [reflexivity|]. intros _.
    destruct (_ && _)%bool;
      [apply handleRefreshTokenError_Quiet | constructor].
Qed.
End Frames.

(** *** The reconciliation pass *)

Section Reconcile.
Context {S : Type} `{Supabase S}.

(** A pass returns, and what it returns is what it has published. *)
Lemma handleSession_returns captured session (w : World S) :
  exists r w',
    run (handleSession captured session) w = (Returned r, w')
    /\ user (prov w') = r.
Proof.
  destruct w as [s [] c ps].
  destruct session as [sess|]; [|simpl; eauto].
  unfold_pass. split_run; eauto.
Qed.



(** C10.  A user published through a fallback path (permission denied on
    creation, a "not acceptable" fetch error, a fetch with neither row nor
    error) has role 'public' and no registration status; a published role
    'officer' comes from a row the store returned, without error, to a
    read of or an insert into the profile table. *)
Theorem fallback_never_escalates captured sess (w w' : World S) res cs u :
  run (handleSession captured (Some sess)) w = (res, w') ->
  calls w' = calls w ++ cs ->
  user (prov w') = Some u ->
  ((exists o, In o (profile_inserts cs) /\ error_code o = Some "42501") ->
   role u = "public" /\ registrationStatus u = None)
  /\ (forall r e,
        head (profile_fetches cs) = Some (Returned r) ->
        q_error r = Some e -> err_code e <> "PGRST116" ->
        err_code e = "406"
        \/ includes "Not Acceptable" (err_message e) = true ->
        role u = "public" /\ registrationStatus u = None)
  /\ (forall r,
        head (profile_fetches cs) = Some (Returned r) ->
        q_error r = None -> q_data r = None ->
        role u = "public" /\ registrationStatus u = None)
  /\ (role u = "officer" ->
      exists o row,
        In o (profile_fetches cs ++ profile_inserts cs)
        /\ row_of o = Some row /\ row_role row = "officer").
Proof.
  destruct w as [s [] c ps].
  unfold_pass.
  split_run.
  all: intros Hrun Hcalls Hu; leaf Hrun Hcalls; try discriminate.
  all: injection Hu as <-; simpl.
  all: refine (conj _ (conj _ (conj _ _))).
  all: try (intros (o & [<-|[]] & Ho); simpl in Ho;
            first [congruence | split; congruence]).
  all: try (intros (o & [] & _)).
  all: try (intros r0 e Hh He Hne [Hor|Hor]; injection Hh as <-;
            simpl in *; first [congruence | split; congruence]).
  all: try (intros r0 Hh He Hd; injection Hh as <-; simpl in *;
            first [congruence | split; congruence]).
  all: try (intros Hoff; try discriminate;
    match type of Hoff with
    | row_role ?r = _ =>
        exists (Returned {| q_data := Some r; q_error := None |}), r;
        (split; [|split; [reflexivity|assumption]]);
        repeat (first [left; reflexivity | right])
    end).
Qed.

(** C8.  When the insert of the profile is answered with a
    permission-denied error (42501), the pass returns and publishes the
    temporary profile (role 'public', the metadata username); the
    rejected insert is the only write it has asked of the store, and it
    shows no notification. *)
Theorem permission_denied_yields_temporary_profile
  captured sess (w w' : World S) res cs o :
  run (handleSession captured (Some sess)) w = (res, w') ->
  calls w' = calls w ++ cs ->
  In o (profile_inserts cs) ->
  error_code o = Some "42501" ->
  res = Returned (Some (tempUser (s_user sess)))
  /\ user (prov w') = Some (tempUser (s_user sess))
  /\ role (tempUser (s_user sess)) = "public"
  /\ username (tempUser (s_user sess))
     = or_empty (u_meta_username (s_user sess))
  /\ (exists nr, writes cs = [CInsertSelectSingle "app_user" nr o])
  /\ toasts (prov w') = toasts (prov w).
Proof.
  destruct w as [s [] c ps].
  unfold_pass.
  split_run.
  all: intros Hrun Hcalls Hin Herr; leaf Hrun Hcalls; try contradiction.
  all: destruct Hin as [<-|[]]; simpl in Herr; try congruence.
  all: repeat (split; [reflexivity|]); split; [eexists; reflexivity|].
  all: reflexivity.
Qed.

(** What a pass publishes once its insert has been answered: the created
    row when the insert went through.  When the insert hit the unique key
    (23505) the pass reads the profile again, as its next and last call,
    and publishes the row that read returns.  Either way the insert is
    the only write the pass has asked for. *)
Lemma pass_after_insert captured sess (w w' : World S) res cs o row :
  run (handleSession captured (Some sess)) w = (res, w') ->
  calls w' = calls w ++ cs ->
  In o (profile_inserts cs) ->
  (exists nr, writes cs = [CInsertSelectSingle "app_user" nr o])
  /\ (row_of o = Some row ->
      res = Returned (Some (userOfRow (s_user sess) row))
      /\ user (prov w') = Some (userOfRow (s_user sess) row))
  /\ (error_code o = Some "23505" ->
      exists f1 f2 pre nr,
        cs = pre ++ [CInsertSelectSingle "app_user" nr o;
                     CSelectSingle "app_user" (u_id (s_user sess)) f2]
        /\ profile_fetches cs = [f1; f2]
        /\ (row_of f2 = Some row ->
            res = Returned (Some (userOfRow (s_user sess) row))
            /\ user (prov w') = Some (userOfRow (s_user sess) row))).
Proof.
  destruct w as [s [] c ps].
  unfold_pass.
  split_run.
  all: intros Hrun Hcalls Hin; leaf Hrun Hcalls; try contradiction.
  all: destruct Hin as [<-|[]].
  all: (split; [eexists; reflexivity|]).
  all: split;
    [ simpl; intros Hr; try discriminate;
      try (injection Hr as <-; split; reflexivity) |].
  all: simpl; intros Hc; try congruence; try discriminate.
  all: do 2 eexists;
    first [ eexists [_]; eexists; split; [reflexivity|]
          | eexists [_; _]; eexists; split; [reflexivity|] ].
  all: split; [reflexivity|].
  all: simpl; intros Hr; try discriminate.
  all: injection Hr as <-; split; reflexivity.
Qed.
End Reconcile.

(** C1.  Two passes for the same identity: one whose insert went through
    and returned [row], one whose insert failed with the duplicate-key
    code 23505.  The first returns and publishes the user built from
    [row].  The second reads the profile again, as its next and last
    call, and has asked for no write but its rejected insert, so the row
    of the first is the only one persisted; when that second read
    returns the same [row], the second pass returns and publishes the
    same user as the first. *)
Theorem reconcile_duplicate_key_converges
  {SA} `{Supabase SA} {SB} `{Supabase SB}
  capA capB sessA sessB (wA wA' : World SA) (wB wB' : World SB)
  resA resB csA csB oA oB row :
  s_user sessA = s_user sessB ->
  run (handleSession capA (Some sessA)) wA = (resA, wA') ->
  calls wA' = calls wA ++ csA ->
  In oA (profile_inserts csA) -> row_of oA = Some row ->
  run (handleSession capB (Some sessB)) wB = (resB, wB') ->
  calls wB' = calls wB ++ csB ->
  In oB (profile_inserts csB) -> error_code oB = Some "23505" ->
  exists u f1 f2 pre nr,
    resA = Returned (Some u) /\ user (prov wA') = Some u
    /\ id u = u_id (s_user sessA)
    /\ email u = u_email (s_user sessA)
    /\ username u = or_empty (row_username row)
    /\ role u = row_role row
    /\ registrationStatus u = None
    /\ (exists nrA, writes csA = [CInsertSelectSingle "app_user" nrA oA])
    /\ csB = pre ++ [CInsertSelectSingle "app_user" nr oB;
                     CSelectSingle "app_user" (u_id (s_user sessA)) f2]
    /\ profile_fetches csB = [f1; f2]
    /\ writes csB = [CInsertSelectSingle "app_user" nr oB]
    /\ (row_of f2 = Some row ->
        resB = Returned (Some u) /\ user (prov wB') = Some u).
Proof.
  intros Hsame HrunA HcA HinA HrowA HrunB HcB HinB HdupB.
  destruct (pass_after_insert _ _ _ _ _ _ _ row HrunA HcA HinA)
    as (HwA & HA & _).
  destruct (pass_after_insert _ _ _ _ _ _ _ row HrunB HcB HinB)
    as ((nrB & HwB) & _ & HB).
  destruct (HA HrowA) as [-> ->].
  destruct (HB HdupB) as (f1 & f2 & pre & nr & Hcs & Hf & Hsame_row).
  rewrite <- Hsame in Hcs, Hsame_row.
  exists (userOfRow (s_user sessA) row), f1, f2, pre, nr.
  repeat (split; [reflexivity|]). split; [exact HwA|].
  split; [exact Hcs|]. split; [exact Hf|]. split; [|exact Hsame_row].
  rewrite HwB. rewrite Hcs in HwB. unfold writes in HwB.
  rewrite List.filter_app in HwB. simpl in HwB.
  apply (f_equal (@last Call)) in HwB.
  rewrite last_snoc in HwB. simpl in HwB. congruence.
Qed.

(** C2 (as amended).  For a session whose [expires_at] is set, not zero
    and in the past, the pass starts with one call to [refreshSession]
    and makes no other.  When that call is answered with an error the
    pass signs out, publishes null and returns null; it never shows a
    "Session Expired" notification, and shows none at all when the
    sign-out returns. *)
Theorem expired_session_is_refreshed_once {S} `{Supabase S}
  captured sess (w w' : World S) res cs e :
  s_expires_at sess = Some e -> e <> 0 -> e * 1000 < now (prov w) ->
  run (handleSession captured (Some sess)) w = (res, w') ->
  calls w' = calls w ++ cs ->
  exists o rest ts,
    cs = CRefreshSession o :: rest
    /\ refresh_attempts cs = 1%nat
    /\ toasts (prov w') = toasts (prov w) ++ ts
    /\ Forall (fun t => title t <> "Session Expired") ts
    /\ (forall r err,
          o = Returned r -> ar_error r = Some err ->
          res = Returned None
          /\ user (prov w') = None
          /\ exists so,
               rest = [CSignOut so]
               /\ ((exists x, so = Returned x) -> ts = [])).
Proof.
  intros Hexp Hnz Hpast.
  assert (isExpired e (now (prov w)) = true) as Hcheck.
  { unfold isExpired. apply andb_true_iff. split.
    - apply negb_true_iff, Z.eqb_neq, Hnz.
    - apply Z.ltb_lt, Hpast. }
  destruct w as [s [] c ps]. simpl in Hcheck.
  unfold_pass. simpl. rewrite Hexp. simpl. rewrite Hcheck.
  split_run.
  all: intros Hrun Hcalls; leaf Hrun Hcalls.
  all: do 3 eexists; (split; [reflexivity|]); (split; [reflexivity|]);
    (split; [added|]).
  all: split; [repeat (once constructor); simpl; discriminate|].
  all: intros ? ? Ho Herr; try discriminate.
  all: injection Ho as <-; simpl in Herr; try discriminate.
  all: split; [reflexivity|]; split; [reflexivity|];
    eexists; split; [reflexivity|].
  all: first [ intros _; reflexivity | intros [? Hx]; discriminate ].
Qed.

(** *** Concrete runs *)

Lemma reconcile_duplicate_key_converges_witness :
  exists u,
    fst (run (handleSession false (Some ana_session))
           (world creator_script some_day)) = Returned (Some u)
    /\ fst (run (handleSession false (Some ana_session))
              (world loser_script some_day)) = Returned (Some u)
    /\ role u = "public" /\ username u = "ana".
Proof.
  edestruct (reconcile_duplicate_key_converges
               false false ana_session ana_session
               (world creator_script some_day)
               (snd (run (handleSession false (Some ana_session))
                       (world creator_script some_day)))
               (world loser_script some_day)
               (snd (run (handleSession false (Some ana_session))
                       (world loser_script some_day)))
               (fst (run (handleSession false (Some ana_session))
                       (world creator_script some_day)))
               (fst (run (handleSession false (Some ana_session))
                       (world loser_script some_day))))
    as (u & f1 & f2 & pre & nr & HA & _ & _ & _ & Hn & Hr & _ & _ & _
        & Hf & _ & HB);
    [ reflexivity | apply surjective_pairing | reflexivity
    | simpl; left; reflexivity | reflexivity
    | apply surjective_pairing | reflexivity
    | simpl; left; reflexivity | reflexivity | ].
  vm_compute in Hf. injection Hf as _ <-.
  destruct (HB eq_refl) as (HB' & _).
  exists u. repeat split; assumption.
Defined.

Lemma expired_session_is_refreshed_once_witness :
  exists o rest,
    calls (snd (run (handleSession false (Some ana_expired))
                  (world refresh_failed_script some_day)))
    = CRefreshSession o :: rest
    /\ refresh_attempts (CRefreshSession o :: rest) = 1%nat.
Proof.
  edestruct (expired_session_is_refreshed_once
               false ana_expired (world refresh_failed_script some_day)
               (snd (run (handleSession false (Some ana_expired))
                       (world refresh_failed_script some_day)))
               (fst (run (handleSession false (Some ana_expired))
                       (world refresh_failed_script some_day))))
    as (o & rest & ts & Hcs & Hn & _);
    [ reflexivity | discriminate | reflexivity
    | apply surjective_pairing | reflexivity | ].
  exists o, rest. rewrite <- Hcs. split; [reflexivity | exact Hn].
Defined.

Lemma permission_denied_yields_temporary_profile_witness :
  fst (run (handleSession false (Some ana_session))
         (world denied_script some_day))
  = Returned (Some (tempUser ana))
  /\ toasts (prov (snd (run (handleSession false (Some ana_session))
                          (world denied_script some_day)))) = [].
Proof.
  edestruct (permission_denied_yields_temporary_profile
               false ana_session (world denied_script some_day)
               (snd (run (handleSession false (Some ana_session))
                       (world denied_script some_day)))
               (fst (run (handleSession false (Some ana_session))
                       (world denied_script some_day))))
    as (Hres & _ & _ & _ & _ & Ht);
    [ apply surjective_pairing | reflexivity
    | simpl; left; reflexivity | reflexivity | ].
  split; [exact Hres | exact Ht].
Defined.

Lemma fallback_never_escalates_witness :
  exists o row,
    In o (profile_fetches
            (calls (snd (run (handleSession false (Some ana_session))
                           (world officer_script some_day))))
          ++ profile_inserts
               (calls (snd (run (handleSession false (Some ana_session))
                              (world officer_script some_day)))))
    /\ row_of o = Some row /\ row_role row = "officer".
Proof.
  refine (proj2 (proj2 (proj2
    (fallback_never_escalates false ana_session
       (world officer_script some_day)
       (snd (run (handleSession false (Some ana_session))
               (world officer_script some_day)))
       (fst (run (handleSession false (Some ana_session))
               (world officer_script some_day)))
       (calls (snd (run (handleSession false (Some ana_session))
                      (world officer_script some_day))))
       {| id := "7f3c"; email := "ana@example.ph"; voterId := None;
          precinct := None; username := "ana"; role := "officer";
          registrationStatus := None |}
       (surjective_pairing _) eq_refl eq_refl))) eq_refl).
Defined.



(** C2 as stated fails.  An expired session whose refresh fails: the pass
    signs out and returns null, and no notification is shown.  A session
    whose [expires_at] is 0 is not refreshed at all. *)
Lemma expired_session_counterexample :
  (fst (run (handleSession false (Some ana_expired))
          (world refresh_failed_script some_day)) = Returned None
   /\ calls (snd (run (handleSession false (Some ana_expired))
                    (world refresh_failed_script some_day)))
      = [CRefreshSession
           (Returned {| ar_session := None;
                        ar_error := Some {| err_code := "refresh_token_not_found";
                                            err_message := "Invalid Refresh Token" |} |});
         CSignOut (Returned None)]
   /\ toasts (prov (snd (run (handleSession false (Some ana_expired))
                           (world refresh_failed_script some_day)))) = [])
  /\ refresh_attempts
       (calls (snd (run (handleSession false (Some ana_epoch))
                      (world officer_script some_day)))) = 0%nat.
Proof. repeat split. Qed.

(** *** Passes taking turns *)

Section Turns.
Context {S : Type} `{Supabase S}.

(** Stopping at the [await]s and going on yields what [run] yields. *)
Lemma run_settle {A} (m : Prog A) (w : World S) :
  run m w
  = run (fst (settle m (prov w))) (set_prov (snd (settle m (prov w))) w).
Proof.
  revert w; induction m as [a|e|X op k IH|X op k IH]; intros w;
    try (destruct w; reflexivity).
  simpl. destruct (do_local op (prov w)) as [x p'].
  rewrite IH. reflexivity.
Qed.

Lemma run_resume {A} (m : Prog A) (w : World S) :
  run m w = run (fst (resume m w)) (snd (resume m w)).
Proof.
  destruct m as [a|e|X op k|X op k]; try reflexivity.
  simpl. destruct (respond op (svc w)) as [o s'].
  rewrite run_settle. simpl.
  destruct (settle (k o) (prov w)) as [m' p']. reflexivity.
Qed.
End Turns.

(** Two passes for Ana started together on a store without her profile:
    in each of the six ways they can take turns, both return the same
    user, that user is published and one row is stored; in four of them
    the second insert meets the duplicate key. *)
Lemma concurrent_passes_converge :
  map ending
    (started 8 (handleSession false (Some ana_session))
       (handleSession false (Some ana_session))
       (world empty_store some_day))
  = map (fun codes =>
           (Some (Some ana_user), Some (Some ana_user), Some ana_user,
            [("7f3c", ana_new_row)], codes))
      [ [None];
        [None; Some "23505"];
        [None; Some "23505"];
        [None; Some "23505"];
        [None; Some "23505"];
        [None] ].
Proof. vm_compute. reflexivity. Qed.

(** *** The route guard *)

Lemma prefix_begins_with p s :
  String.prefix p s = true <-> begins_with p s.
Proof.
  unfold begins_with. revert s.
  induction p as [|a p IH]; intros s.
  - split; [intros _; exists s; reflexivity | destruct s; reflexivity].
  - destruct s as [|b s]; simpl.
    + split; [discriminate | intros [rest Hrest]; discriminate].
    + destruct (Ascii.ascii_dec a b) as [->|Hab].
      * rewrite IH. split; intros [rest Hrest]; exists rest.
        -- rewrite Hrest. reflexivity.
        -- injection Hrest as ->. reflexivity.
      * split; [discriminate|].
        intros [rest Hrest]. injection Hrest as Hb _. congruence.
Qed.

Lemma includes_has_substring sub s :
  includes sub s = true <-> has_substring sub s.
Proof.
  unfold has_substring. split.
  - induction s as [|a s IH]; cbn [includes]; rewrite orb_true_iff;
      intros [Hp|Hi]; try discriminate.
    + apply prefix_begins_with in Hp as [rest ->].
      exists "", rest. reflexivity.
    + apply prefix_begins_with in Hp as [rest ->].
      exists "", rest. reflexivity.
    + destruct (IH Hi) as (pre & post & ->).
      exists (String a pre), post. reflexivity.
  - intros (pre & post & ->).
    induction pre as [|a pre IH].
    + assert (String.prefix sub (sub +:+ post) = true) as Hp
        by (apply prefix_begins_with; exists post; reflexivity).
      change ("" +:+ sub +:+ post) with (sub +:+ post).
      destruct (sub +:+ post); cbn [includes]; rewrite Hp; reflexivity.
    + change (String a pre +:+ sub +:+ post)
        with (String a (pre +:+ sub +:+ post)).
      cbn [includes]. rewrite IH. apply orb_true_r.
Qed.

Lemma array_includes_In paths pathname :
  array_includes paths pathname = true <-> In pathname paths.
Proof.
  unfold array_includes. rewrite existsb_exists. split.
  - intros (x & Hx & Heq). apply String.eqb_eq in Heq. congruence.
  - intros Hin. exists pathname. split; [assumption | apply String.eqb_refl].
Qed.

Lemma allow_list_decided pathname :
  array_includes publicUserAuthenticatedPaths pathname
  || isPublicPath pathname = true <-> on_allow_list pathname.
Proof.
  unfold on_allow_list, isPublicPath.
  rewrite !orb_true_iff, !array_includes_In, !includes_has_substring,
    in_app_iff.
  tauto.
Qed.

(** C6.  Once loading is over: an officer on a path that begins with
    [/public/] is sent to [/dashboard]; a public user on a path that
    begins with [/dashboard] is sent to [/public/home]; a visitor who is
    not signed in is sent to [/auth] exactly when the path is not on the
    allow-list. *)
Theorem route_guard_redirects (u : AuthenticatedUser) (pathname : string) :
  (role u = "officer" -> begins_with "/public/" pathname ->
   routeGuard false (Some u) pathname = Some "/dashboard")
  /\ (role u = "public" -> begins_with "/dashboard" pathname ->
      routeGuard false (Some u) pathname = Some "/public/home")
  /\ (~ on_allow_list pathname ->
      routeGuard false None pathname = Some "/auth")
  /\ (on_allow_list pathname -> routeGuard false None pathname = None).
Proof.
  unfold routeGuard, startsWith. repeat split.
  - intros Hrole Hpath. apply prefix_begins_with in Hpath.
    rewrite Hrole, Hpath. reflexivity.
  - intros Hrole Hpath. apply prefix_begins_with in Hpath.
    rewrite Hrole, Hpath. reflexivity.
  - intros Hnot. rewrite <- negb_orb.
    destruct (_ || _) eqn:E; [|reflexivity].
    apply allow_list_decided in E. contradiction.
  - intros Hon. apply allow_list_decided in Hon.
    rewrite <- negb_orb, Hon. reflexivity.
Qed.

Lemma route_guard_redirects_witness :
  routeGuard false (Some (userOfRow ana ana_officer_row)) "/public/profile"
  = Some "/dashboard"
  /\ routeGuard false (Some ana_user) "/dashboard/applications"
     = Some "/public/home"
  /\ routeGuard false None "/public/reset-password/confirm" = None.
Proof.
  split; [|split].
  - apply (route_guard_redirects (userOfRow ana ana_officer_row)
             "/public/profile"); [reflexivity|].
    exists "profile". reflexivity.
  - apply (route_guard_redirects ana_user "/dashboard/applications");
      [reflexivity|]. exists "/applications". reflexivity.
  - apply (route_guard_redirects ana_user "/public/reset-password/confirm").
    right. left. exists "/public", "/confirm". reflexivity.
Defined.

(** *** [login], [updateUserProfile] *)

Opaque handleSession.

(** C5.  [login] when the sign-in call has answered.  With an error: the
    error's message is shown, the published user is left as it was, no
    route is pushed, no other call is made.  With a session: the session
    is reconciled by [handleSession], what that pass returns is the
    published user, and then one route is pushed: [/dashboard] when the
    reconciled role is 'officer', [/public/home] otherwise. *)
Theorem login_redirects_by_role {S} `{Supabase S}
  captured email_ passwordAttempt (w w' : World S) res r s1 :
  respond (SignInWithPassword email_ passwordAttempt) (svc w)
  = (Returned r, s1) ->
  run (login captured email_ passwordAttempt) w = (res, w') ->
  res = Returned tt
  /\ (forall error,
        ar_error r = Some error ->
        toasts (prov w') = toasts (prov w) ++ [loginFailedToast error]
        /\ user (prov w') = user (prov w)
        /\ pushes (prov w') = pushes (prov w)
        /\ calls w'
           = calls w
             ++ [CSignInWithPassword email_ passwordAttempt (Returned r)])
  /\ (forall session,
        ar_error r = None -> ar_session r = Some session ->
        exists userData w2,
          run (handleSession captured (Some session))
            (answered (SignInWithPassword email_ passwordAttempt)
               (Returned r) s1
               (set_prov (set_isLoading true (prov w)) w))
          = (Returned userData, w2)
          /\ user (prov w') = userData
          /\ ((exists u, userData = Some u /\ role u = "officer") ->
              pushes (prov w') = pushes (prov w) ++ ["/dashboard"])
          /\ (~ (exists u, userData = Some u /\ role u = "officer") ->
              pushes (prov w') = pushes (prov w) ++ ["/public/home"])).
Proof.
  intros Hsign Hrun. unfold login in Hrun.
  destruct w as [s p c ps]. simpl in Hsign, Hrun. rewrite Hsign in Hrun.
  destruct r as [sess [error|]]; simpl in Hrun.
  - injection Hrun as <- <-. split; [reflexivity|]. split.
    + intros ? [= <-]. simpl. repeat split; reflexivity.
    + intros ? [=].
  - destruct sess as [session|]; simpl in Hrun.
    2:{ injection Hrun as <- <-. split; [reflexivity|].
        split; [intros ? [=] | intros ? _ [=]]. }
    rewrite run_bind, run_bind in Hrun.
    match type of Hrun with
    | context [run (handleSession captured (Some session)) ?w1] =>
        destruct (handleSession_returns captured (Some session) w1)
          as (userData & w2 & Hpass & Hpub);
        pose proof (Quiet_run _ w1 (handleSession_Quiet captured
                                      (Some session)))
          as (_ & _ & Hpush & _);
        rewrite Hpass in Hrun, Hpush
    end.
    simpl in Hrun, Hpush.
    destruct w2 as [sv2 p2 c2 ps2]. simpl in Hpub, Hpush.
    split; [|split; [intros ? [=]|]].
    + destruct userData as [u|]; [destruct (String.eqb (role u) "officer")|];
        simpl in Hrun; injection Hrun as <- <-; reflexivity.
    + intros ? _ [= <-]. exists userData, {| svc := sv2; prov := p2; calls := c2; passes := ps2 |}.
      split; [exact Hpass|].
      destruct userData as [u|];
        [destruct (String.eqb (role u) "officer") eqn:Hrole|];
        simpl in Hrun; injection Hrun as <- <-; simpl;
        (split; [exact Hpub|]); rewrite Hpush; tests.
      * split; [reflexivity|]. intros Hnot. exfalso. apply Hnot. eauto.
      * split; [|reflexivity]. intros (u' & [= <-] & Hoff). contradiction.
      * split; [|reflexivity]. intros (u' & [=] & _).
Qed.

Transparent handleSession.

Lemma login_redirects_by_role_witness :
  pushes (prov (snd (run (login false "ana@example.ph" "s3cret")
                       (world login_script some_day)))) = ["/dashboard"]
  /\ pushes (prov (snd (run (login false "ana@example.ph" "wrong")
                          (world login_refused_script some_day)))) = [].
Proof.
  split.
  - edestruct (login_redirects_by_role false "ana@example.ph" "s3cret"
                 (world login_script some_day)
                 (snd (run (login false "ana@example.ph" "s3cret")
                         (world login_script some_day)))
                 (fst (run (login false "ana@example.ph" "s3cret")
                         (world login_script some_day))))
      as (_ & _ & Hok); [reflexivity | apply surjective_pairing |].
    destruct (Hok ana_session eq_refl eq_refl)
      as (userData & w2 & Hpass & _ & Hoff & _).
    apply Hoff. vm_compute in Hpass. injection Hpass as <- _.
    eexists. split; reflexivity.
  - edestruct (login_redirects_by_role false "ana@example.ph" "wrong"
                 (world login_refused_script some_day)
                 (snd (run (login false "ana@example.ph" "wrong")
                         (world login_refused_script some_day)))
                 (fst (run (login false "ana@example.ph" "wrong")
                         (world login_refused_script some_day))))
      as (_ & Hbad & _); [reflexivity | apply surjective_pairing |].
    destruct (Hbad _ eq_refl) as (_ & _ & Hpush & _). exact Hpush.
Defined.

(** C4: what the code does.  Ana's profile is stored under the same key
    in [app_user] and in [profile].  [updateUserProfile] asks for one
    write, on [profile], reads the session, starts a pass without
    awaiting it, shows "Success" and returns true: when it returns, no
    call of the pass has been answered and the published username is the
    old one.  The pass it has left running reads [app_user], whose row
    still carries the old username, and that is the username published
    when the pass has ended. *)
Theorem updateUserProfile_updates_another_table :
  let r := run (updateUserProfile false (Some ana_user) (Some "ana_maria"))
             (signed_in two_tables some_day) in
  (exists pass, fst r = Returned (true, Some pass))
  /\ calls (snd r)
     = [CUpdateUsername "profile" "7f3c" (Some "ana_maria") (Returned None);
        CGetSession (Returned {| ar_session := Some ana_session;
                                 ar_error := None |})]
  /\ toasts (prov (snd r))
     = [{| title := "Success";
           description := "Your profile has been updated.";
           destructive := false |}]
  /\ username <$> user (prov (snd r)) = Some "ana"
  /\ writes (calls (left_running r))
     = [CUpdateUsername "profile" "7f3c" (Some "ana_maria") (Returned None)]
  /\ profile_fetches (calls (left_running r))
     = [Returned {| q_data := Some ana_row; q_error := None |}]
  /\ nr_username <$> table_of (svc (left_running r)) "app_user" !! "7f3c"
     = Some "ana"
  /\ nr_username <$> table_of (svc (left_running r)) "profile" !! "7f3c"
     = Some "ana_maria"
  /\ username <$> user (prov (left_running r)) = Some "ana".
Proof.
  vm_compute. split; [eexists; reflexivity|]. repeat split.
Qed.

(** *** Timers *)

Section Loop.
Context {S : Type} `{Supabase S}.

Lemma fire_passes captured a (w : World S) :
  passes (fire captured a w)
  = passes w ++ match a with
                | DebouncedHandleSession s => [s]
                | _ => []
                end.
Proof.
  destruct a as [| |s]; simpl; try (symmetry; apply app_nil_r).
  match goal with
  | |- passes (snd (run ?m ?w0)) = _ =>
      destruct (run_frame m w0) as (_ & _ & _ & ->)
  end.
  reflexivity.
Qed.

Lemma fire_frame captured a (w : World S) :
  timers (prov (fire captured a w)) = timers (prov w)
  /\ timeoutId (prov (fire captured a w)) = timeoutId (prov w)
  /\ now (prov (fire captured a w)) = now (prov w).
Proof.
  destruct a as [| |s]; simpl; try tauto.
  match goal with
  | |- context [run ?m ?w0] =>
      destruct (run_frame m w0) as (-> & _ & -> & _);
      destruct (Quiet_run m w0 (debouncedCallback_Quiet _ _ _))
        as (-> & _)
  end.
  simpl. tauto.
Qed.

Lemma fire_processing captured a (w : World S) :
  isProcessingPasswordUpdate (prov (fire captured a w))
  = match a with
    | ClearProcessingPasswordUpdate => false
    | _ => isProcessingPasswordUpdate (prov w)
    end.
Proof.
  destruct a as [| |s]; simpl; try reflexivity.
  match goal with
  | |- context [run ?m ?w0] =>
      destruct (run_frame m w0) as (_ & -> & _)
  end.
  reflexivity.
Qed.

Lemma sweep_passes captured (l : list Timer) (w : World S) :
  passes (fold_left (fire_at captured) l w)
  = passes w ++ map snd (pending l).
Proof.
  revert w; induction l as [|t l IH]; intros w; simpl.
  - symmetry; apply app_nil_r.
  - rewrite IH. unfold fire_at. rewrite fire_passes. simpl.
    unfold pending, pending_of. simpl.
    destruct (action t); simpl; rewrite <- ?app_assoc; reflexivity.
Qed.

Lemma sweep_frame captured (l : list Timer) (w : World S) :
  timers (prov (fold_left (fire_at captured) l w)) = timers (prov w)
  /\ timeoutId (prov (fold_left (fire_at captured) l w))
     = timeoutId (prov w).
Proof.
  revert w; induction l as [|t l IH]; intros w; simpl; [tauto|].
  destruct (IH (fire_at captured w t)) as [-> ->].
  unfold fire_at.
  destruct (fire_frame captured (action t)
              (set_prov (set_now (due t) (prov w)) w)) as (-> & -> & _).
  simpl. tauto.
Qed.

Lemma sweep_processing captured (l : list Timer) (w : World S) :
  isProcessingPasswordUpdate (prov (fold_left (fire_at captured) l w))
  = if existsb is_reset l then false
    else isProcessingPasswordUpdate (prov w).
Proof.
  revert w; induction l as [|t l IH]; intros w; simpl; [reflexivity|].
  rewrite IH. unfold fire_at. rewrite fire_processing.
  unfold is_reset. destruct (action t); simpl;
    destruct (existsb _ l); reflexivity.
Qed.

Lemma insert_timer_perm t (l : list Timer) : insert_timer t l ≡ₚ t :: l.
Proof.
  induction l as [|t' l IH]; simpl; [reflexivity|].
  destruct (due t <? due t'); [reflexivity|].
  rewrite IH. apply Permutation_swap.
Qed.

Lemma sort_timers_perm (l : list Timer) : sort_timers l ≡ₚ l.
Proof.
  induction l as [|t l IH]; simpl; [reflexivity|].
  rewrite insert_timer_perm, IH. reflexivity.
Qed.

(** A filter on timers that only looks at id and due time acts on the
    pending debounce timers as the same filter. *)
Lemma pending_filter (P : Timer -> Prop) `{forall t, Decision (P t)}
  (Q : nat * Z * option Session -> Prop) `{forall x, Decision (Q x)}
  (l : list Timer) :
  (forall t x, pending_of t = Some x -> (P t <-> Q x)) ->
  pending (filter P l) = filter Q (pending l).
Proof.
  intros HPQ. unfold pending.
  induction l as [|t l IH]; [reflexivity|].
  rewrite filter_cons. simpl.
  destruct (pending_of t) as [x|] eqn:E.
  - rewrite filter_cons.
    destruct (decide (P t)) as [HP|HP], (decide (Q x)) as [HQ|HQ];
      simpl; rewrite ?E;
      first [ exact IH | f_equal; exact IH
            | exfalso; pose proof (HPQ _ _ E); tauto ].
  - destruct (decide (P t)); simpl; rewrite ?E; exact IH.
Qed.

Lemma advance_passes captured dt (w : World S) :
  passes (advance captured dt w)
  = passes w
    ++ map snd
         (pending (sort_timers
                     (filter (fun t => due t ≤ now (prov w) + dt)
                        (timers (prov w))))).
Proof. unfold advance. simpl. rewrite sweep_passes. reflexivity. Qed.

Lemma advance_frame captured dt (w : World S) :
  timers (prov (advance captured dt w))
  = filter (fun t => ¬ due t ≤ now (prov w) + dt) (timers (prov w))
  /\ timeoutId (prov (advance captured dt w)) = timeoutId (prov w)
  /\ now (prov (advance captured dt w)) = now (prov w) + dt.
Proof.
  unfold advance. simpl.
  match goal with
  | |- context [fold_left (fire_at captured) ?l ?w0] =>
      destruct (sweep_frame captured l w0) as [-> ->]
  end.
  simpl. tauto.
Qed.

Lemma advance_processing captured dt (w : World S) :
  isProcessingPasswordUpdate (prov (advance captured dt w))
  = if existsb is_reset
         (sort_timers (filter (fun t => due t ≤ now (prov w) + dt)
                         (timers (prov w))))
    then false
    else isProcessingPasswordUpdate (prov w).
Proof. unfold advance. simpl. rewrite sweep_processing. reflexivity. Qed.

Lemma due_reset_iff (l : list Timer) (x : Z) :
  existsb is_reset (sort_timers (filter (fun t => due t ≤ x) l)) = true
  <-> exists t, In t l /\ due t <= x /\ is_reset t = true.
Proof.
  rewrite existsb_exists. split.
  - intros (t & Hin & Hr). exists t.
    apply (Permutation_in _ (sort_timers_perm _)) in Hin.
    apply list_elem_of_In, list_elem_of_filter in Hin as [Hd Hin].
    apply list_elem_of_In in Hin. auto.
  - intros (t & Hin & Hd & Hr). exists t. split; [|exact Hr].
    apply (Permutation_in _ (Permutation_sym (sort_timers_perm _))).
    apply list_elem_of_In, list_elem_of_filter.
    split; [exact Hd | apply list_elem_of_In, Hin].
Qed.

(** While the one pending debounce timer is not due, time passes and no
    pass is started. *)
Lemma quiet_gap captured g (w : World S) i d s :
  pending (timers (prov w)) = [(i, d, s)] ->
  now (prov w) + g < d ->
  pending (timers (prov (advance captured g w))) = [(i, d, s)]
  /\ timeoutId (prov (advance captured g w)) = timeoutId (prov w)
  /\ passes (advance captured g w) = passes w
  /\ now (prov (advance captured g w)) = now (prov w) + g.
Proof.
  intros Hpend Hlt.
  destruct (advance_frame captured g w) as (Ht & Hid & Hnow).
  rewrite advance_passes, Ht, Hid, Hnow.
  rewrite (pending_filter _ (fun x => ¬ snd (fst x) ≤ now (prov w) + g)),
    Hpend.
  2:{ intros t [[i' d'] s'] E. unfold pending_of in E.
      destruct (action t); try discriminate. injection E as _ <- _.
      reflexivity. }
  assert (pending (sort_timers
                     (filter (fun t => due t ≤ now (prov w) + g)
                        (timers (prov w)))) = []) as ->.
  { apply Permutation_nil_r. unfold pending.
    rewrite sort_timers_perm. fold (pending
      (filter (fun t => due t ≤ now (prov w) + g) (timers (prov w)))).
    rewrite (pending_filter _ (fun x => snd (fst x) ≤ now (prov w) + g)),
      Hpend.
    2:{ intros t [[i' d'] s'] E. unfold pending_of in E.
        destruct (action t); try discriminate. injection E as _ <- _.
        reflexivity. }
    rewrite filter_cons, filter_nil. simpl.
    destruct (decide (d ≤ now (prov w) + g)); [lia | reflexivity]. }
  rewrite filter_cons, filter_nil. simpl.
  destruct (decide (¬ d ≤ now (prov w) + g)); [|lia].
  rewrite app_nil_r. tauto.
Qed.

(** Once the one pending debounce timer is due, exactly its pass is
    started. *)
Lemma debounce_fires captured dt (w : World S) i d s :
  pending (timers (prov w)) = [(i, d, s)] ->
  d <= now (prov w) + dt ->
  passes (advance captured dt w) = passes w ++ [s].
Proof.
  intros Hpend Hle. rewrite advance_passes.
  assert (pending (sort_timers
                     (filter (fun t => due t ≤ now (prov w) + dt)
                        (timers (prov w)))) = [(i, d, s)]) as ->;
    [|reflexivity].
  apply Permutation_singleton_r. unfold pending.
  rewrite sort_timers_perm. fold (pending
    (filter (fun t => due t ≤ now (prov w) + dt) (timers (prov w)))).
  rewrite (pending_filter _ (fun x => snd (fst x) ≤ now (prov w) + dt)),
    Hpend.
  2:{ intros t [[i' d'] s'] E. unfold pending_of in E.
      destruct (action t); try discriminate. injection E as _ <- _.
      reflexivity. }
  rewrite filter_cons, filter_nil. simpl.
  destruct (decide (d ≤ now (prov w) + dt)); [reflexivity | lia].
Qed.

(** A notification that reaches the debounce leaves exactly one pending
    debounce timer: its own. *)
Lemma deliver_debounced event session (w : World S) :
  debounced_event event = true ->
  debounce_inv (prov w) ->
  pending (timers (prov (deliver event session w)))
  = [(next_tid (prov w), now (prov w) + 100, session)]
  /\ timeoutId (prov (deliver event session w)) = Some (next_tid (prov w))
  /\ passes (deliver event session w) = passes w
  /\ now (prov (deliver event session w)) = now (prov w).
Proof.
  intros Hev Hinv. destruct w as [sv p c ps]. simpl in Hinv.
  assert (pending (timers (clearTimeout (timeoutId p) p)) = []) as Hclear.
  { unfold debounce_inv in Hinv. destruct (timeoutId p) as [n|] eqn:En;
      simpl.
    - rewrite (pending_filter _ (fun x => fst (fst x) ≠ n)).
      2:{ intros t [[i' d'] s'] E. unfold pending_of in E.
          destruct (action t); try discriminate. injection E as <- _ _.
          reflexivity. }
      induction (pending (timers p)) as [|[[i d] s] l IH]; [reflexivity|].
      rewrite filter_cons. simpl.
      destruct (decide (i ≠ n)) as [Hne|_].
      + exfalso. apply Hne.
        specialize (Hinv i d s (or_introl eq_refl)). congruence.
      + apply IH. intros i' d' s' Hin. apply (Hinv i' d' s').
        right. exact Hin.
    - destruct (pending (timers p)) as [|[[i d] s] l]; [reflexivity|].
      specialize (Hinv i d s (or_introl eq_refl)). discriminate. }
  unfold deliver, onAuthStateChange.
  destruct event; try discriminate; simpl;
    try destruct (isProcessingPasswordUpdate p); simpl;
    unfold pending in *; rewrite omap_app;
    destruct (timeoutId p); simpl in *; rewrite Hclear; simpl; tauto.
Qed.

Lemma debounce_inv_mounted t0 : debounce_inv (mounted t0).
Proof. intros i d s []. Qed.

Lemma debounce_inv_deliver event session (w : World S) :
  debounce_inv (prov w) -> debounce_inv (prov (deliver event session w)).
Proof.
  intros Hinv.
  destruct (debounced_event event) eqn:Hev.
  - destruct (deliver_debounced event session w Hev Hinv)
      as (Hp & Hid & _).
    intros i d s Hin. rewrite Hp in Hin. destruct Hin as [[= <- _ _]|[]].
    exact Hid.
  - destruct w as [sv p c ps]. unfold debounce_inv in *.
    destruct event; try discriminate; simpl in *.
    + destruct (isProcessingPasswordUpdate p); simpl; exact Hinv.
    + exact Hinv.
    + unfold pending in *. rewrite omap_app. simpl.
      rewrite app_nil_r. exact Hinv.
Qed.

Lemma debounce_inv_advance captured dt (w : World S) :
  debounce_inv (prov w) -> debounce_inv (prov (advance captured dt w)).
Proof.
  intros Hinv i d s Hin.
  destruct (advance_frame captured dt w) as (Ht & Hid & _).
  rewrite Hid. rewrite Ht in Hin.
  rewrite (pending_filter _ (fun x => ¬ snd (fst x) ≤ now (prov w) + dt))
    in Hin.
  2:{ intros t [[i' d'] s'] E. unfold pending_of in E.
      destruct (action t); try discriminate. injection E as _ <- _.
      reflexivity. }
  apply list_elem_of_In, list_elem_of_filter in Hin as [_ Hin].
  apply list_elem_of_In in Hin. exact (Hinv i d s Hin).
Qed.

(** Through a burst, the one pending debounce timer is that of the last
    notification, and no pass is started. *)
Lemma burst_pending captured (ns : list Notification) :
  forall (w : World S) i s,
    Forall in_burst ns ->
    pending (timers (prov w)) = [(i, now (prov w) + 100, s)] ->
    timeoutId (prov w) = Some i ->
    exists i',
      pending (timers (prov (deliver_burst captured ns w)))
      = [(i', now (prov (deliver_burst captured ns w)) + 100,
          last_session s ns)]
      /\ passes (deliver_burst captured ns w) = passes w.
Proof.
  induction ns as [|[[g ev] s'] ns IH]; intros w i s Hall Hpend Hid.
  - exists i. split; [exact Hpend | reflexivity].
  - inversion Hall as [|n ns' [Hg Hev] Hall']; subst. simpl in Hg, Hev.
    destruct (quiet_gap captured g w i _ s Hpend ltac:(lia))
      as (Hp1 & Hid1 & Hps1 & Hnow1).
    assert (debounce_inv (prov (advance captured g w))) as Hinv1.
    { intros i1 d1 s1 Hin. rewrite Hp1 in Hin.
      destruct Hin as [[= <- _ _]|[]]. congruence. }
    destruct (deliver_debounced ev s' (advance captured g w) Hev Hinv1)
      as (Hp2 & Hid2 & Hps2 & Hnow2).
    simpl. rewrite <- Hnow2 in Hp2.
    destruct (IH _ _ s' Hall' Hp2 Hid2) as (i' & Hp3 & Hps3).
    exists i'. split; [exact Hp3 | congruence].
Qed.

(** The debounced callback ends where the pass it calls ends: a pass
    never throws, so the [catch] is not entered. *)
Lemma debouncedCallback_run captured processing session (w : World S) :
  run (debouncedCallback captured processing session) w
  = (Returned tt, snd (run (handleSession captured session) w)).
Proof.
  unfold debouncedCallback. rewrite run_try_catch, run_bind.
  destruct (handleSession_returns captured session w)
    as (r & w' & Hrun & _).
  rewrite Hrun. reflexivity.
Qed.

(** The timers that reset a flag make no call and leave the published
    user and the notifications alone. *)
Lemma fire_at_other captured t (w : World S) :
  pending_of t = None ->
  svc (fire_at captured w t) = svc w
  /\ calls (fire_at captured w t) = calls w
  /\ user (prov (fire_at captured w t)) = user (prov w)
  /\ toasts (prov (fire_at captured w t)) = toasts (prov w).
Proof.
  unfold fire_at, fire, pending_of.
  destruct (action t); [simpl; tauto | simpl; tauto | discriminate].
Qed.

Lemma fire_at_debounce captured t s (w : World S) :
  action t = DebouncedHandleSession s ->
  fire_at captured w t
  = snd (run (handleSession captured s)
           (add_pass s (set_prov (set_now (due t) (prov w)) w))).
Proof.
  intros Ea. unfold fire_at, fire. rewrite Ea.
  rewrite debouncedCallback_run. reflexivity.
Qed.

Lemma sweep_idle captured (l : list Timer) :
  forall w : World S,
    pending l = [] ->
    svc (fold_left (fire_at captured) l w) = svc w
    /\ calls (fold_left (fire_at captured) l w) = calls w
    /\ user (prov (fold_left (fire_at captured) l w)) = user (prov w)
    /\ toasts (prov (fold_left (fire_at captured) l w)) = toasts (prov w).
Proof.
  induction l as [|t l IH]; intros w Hnil; simpl; [tauto|].
  unfold pending in Hnil. simpl in Hnil.
  destruct (pending_of t) eqn:E; [discriminate|].
  destruct (IH (fire_at captured w t) Hnil) as (-> & -> & -> & ->).
  exact (fire_at_other captured t w E).
Qed.

(** A sweep over timers of which one is a debounce timer: at its due
    time one pass runs, on the session the timer carries, against the
    client as the calls made so far have left it. *)
Lemma sweep_one captured (l : list Timer) :
  forall (w : World S) i d s,
    pending l = [(i, d, s)] ->
    exists wf r w',
      svc wf = svc w /\ calls wf = calls w
      /\ user (prov wf) = user (prov w)
      /\ toasts (prov wf) = toasts (prov w)
      /\ now (prov wf) = d
      /\ run (handleSession captured s) wf = (Returned r, w')
      /\ svc (fold_left (fire_at captured) l w) = svc w'
      /\ calls (fold_left (fire_at captured) l w) = calls w'
      /\ user (prov (fold_left (fire_at captured) l w)) = r
      /\ toasts (prov (fold_left (fire_at captured) l w))
         = toasts (prov w').
Proof.
  induction l as [|t l IH]; intros w i d s Hone; [discriminate|].
  unfold pending in Hone. simpl in Hone.
  destruct (pending_of t) as [[[i' d'] s']|] eqn:E.
  - injection Hone as -> -> -> Hnil.
    unfold pending_of in E.
    destruct (action t) as [| |s0] eqn:Ea; try discriminate.
    injection E as _ Hd ->.
    cbn [fold_left]. rewrite (fire_at_debounce captured t s w Ea).
    destruct (handleSession_returns captured s
                (add_pass s (set_prov (set_now (due t) (prov w)) w)))
      as (r & w' & Hrun & Hu).
    rewrite Hrun. cbn [snd].
    destruct (sweep_idle captured l w' Hnil) as (-> & -> & -> & ->).
    exists (add_pass s (set_prov (set_now (due t) (prov w)) w)), r, w'.
    destruct w as [sv p c ps]. simpl. tauto.
  - destruct (IH (fire_at captured w t) i d s Hone)
      as (wf & r & w' & Hs & Hc & Hu & Ht & Hrest).
    destruct (fire_at_other captured t w E) as (Hs1 & Hc1 & Hu1 & Ht1).
    exists wf, r, w'. simpl.
    rewrite Hs, Hc, Hu, Ht, Hs1, Hc1, Hu1, Ht1. tauto.
Qed.

(** The debounce timers that fall due by [x], when one is pending. *)
Lemma due_pending (l : list Timer) (x : Z) i d s :
  pending l = [(i, d, s)] ->
  pending (sort_timers (filter (fun t => due t ≤ x) l))
  = if decide (d ≤ x) then [(i, d, s)] else [].
Proof.
  intros Hpend.
  assert (pending (filter (fun t => due t ≤ x) l)
          = if decide (d ≤ x) then [(i, d, s)] else []) as Hf.
  { rewrite (pending_filter _ (fun y => snd (fst y) ≤ x)), Hpend.
    2:{ intros t [[i' d'] s'] E. unfold pending_of in E.
        destruct (action t); try discriminate. injection E as _ <- _.
        reflexivity. }
    rewrite filter_cons, filter_nil. simpl.
    destruct (decide (d ≤ x)); reflexivity. }
  destruct (decide (d ≤ x)).
  - apply Permutation_singleton_r. unfold pending.
    rewrite sort_timers_perm. exact (eq_ind _ (fun y => y ≡ₚ _)
      (reflexivity _) _ (eq_sym Hf)).
  - apply Permutation_nil_r. unfold pending.
    rewrite sort_timers_perm. unfold pending in Hf. rewrite Hf.
    reflexivity.
Qed.

(** While the pending pass is not due, time passes without a call. *)
Lemma advance_idle captured g (w : World S) i d s :
  pending (timers (prov w)) = [(i, d, s)] ->
  now (prov w) + g < d ->
  svc (advance captured g w) = svc w
  /\ calls (advance captured g w) = calls w
  /\ user (prov (advance captured g w)) = user (prov w)
  /\ toasts (prov (advance captured g w)) = toasts (prov w).
Proof.
  intros Hpend Hlt.
  pose proof (due_pending _ (now (prov w) + g) _ _ _ Hpend) as Hdue.
  destruct (decide (d ≤ now (prov w) + g)); [lia|].
  unfold advance. simpl.
  match goal with
  | |- context [fold_left _ _ ?w0] =>
      destruct (sweep_idle captured _ w0 Hdue) as (-> & -> & -> & ->)
  end.
  simpl. tauto.
Qed.

(** Once the pending pass is due it runs, once. *)
Lemma advance_one captured dt (w : World S) i d s :
  pending (timers (prov w)) = [(i, d, s)] ->
  d <= now (prov w) + dt ->
  exists wf r w',
    svc wf = svc w /\ calls wf = calls w
    /\ user (prov wf) = user (prov w)
    /\ toasts (prov wf) = toasts (prov w)
    /\ now (prov wf) = d
    /\ run (handleSession captured s) wf = (Returned r, w')
    /\ svc (advance captured dt w) = svc w'
    /\ calls (advance captured dt w) = calls w'
    /\ user (prov (advance captured dt w)) = r
    /\ toasts (prov (advance captured dt w)) = toasts (prov w').
Proof.
  intros Hpend Hle.
  pose proof (due_pending _ (now (prov w) + dt) _ _ _ Hpend) as Hdue.
  destruct (decide (d ≤ now (prov w) + dt)); [|lia].
  unfold advance. simpl.
  match goal with
  | |- context [fold_left _ _ ?w0] =>
      destruct (sweep_one captured _ w0 _ _ _ Hdue)
        as (wf & r & w' & Hs & Hc & Hu & Ht & Hn & Hrun & Hrest)
  end.
  exists wf, r, w'. simpl in *. tauto.
Qed.

(** A notification that reaches the debounce makes no call and leaves
    the published user and the notifications alone. *)
Lemma deliver_idle event session (w : World S) :
  debounced_event event = true ->
  svc (deliver event session w) = svc w
  /\ calls (deliver event session w) = calls w
  /\ user (prov (deliver event session w)) = user (prov w)
  /\ toasts (prov (deliver event session w)) = toasts (prov w).
Proof.
  intros Hev. destruct w as [sv p c ps].
  unfold deliver, onAuthStateChange.
  destruct event; try discriminate; simpl;
    try destruct (isProcessingPasswordUpdate p); simpl;
    destruct (timeoutId p); simpl; tauto.
Qed.

(** Through a burst no call is made. *)
Lemma burst_idle captured (ns : list Notification) :
  forall (w : World S) i s,
    Forall in_burst ns ->
    pending (timers (prov w)) = [(i, now (prov w) + 100, s)] ->
    timeoutId (prov w) = Some i ->
    svc (deliver_burst captured ns w) = svc w
    /\ calls (deliver_burst captured ns w) = calls w
    /\ user (prov (deliver_burst captured ns w)) = user (prov w)
    /\ toasts (prov (deliver_burst captured ns w)) = toasts (prov w).
Proof.
  induction ns as [|[[g ev] s'] ns IH]; intros w i s Hall Hpend Hid.
  - simpl. tauto.
  - inversion Hall as [|n ns' [Hg Hev] Hall']; subst. simpl in Hg, Hev.
    destruct (quiet_gap captured g w i _ s Hpend ltac:(lia))
      as (Hp1 & Hid1 & Hps1 & Hnow1).
    destruct (advance_idle captured g w i _ s Hpend ltac:(lia))
      as (Hs1 & Hc1 & Hu1 & Ht1).
    assert (debounce_inv (prov (advance captured g w))) as Hinv1.
    { intros i1 d1 s1 Hin. rewrite Hp1 in Hin.
      destruct Hin as [[= <- _ _]|[]]. congruence. }
    destruct (deliver_debounced ev s' (advance captured g w) Hev Hinv1)
      as (Hp2 & Hid2 & Hps2 & Hnow2).
    destruct (deliver_idle ev s' (advance captured g w) Hev)
      as (Hs2 & Hc2 & Hu2 & Ht2).
    simpl. rewrite <- Hnow2 in Hp2.
    destruct (IH _ _ s' Hall' Hp2 Hid2) as (-> & -> & -> & ->).
    rewrite Hs2, Hc2, Hu2, Ht2. tauto.
Qed.

(** C7.  A burst of notifications that reach the debounce (each less
    than 100 ms after the one before it), delivered to a provider whose
    pending debounce timer, if any, is the one [timeoutId] remembers.
    During the burst no pass is started and no call is made.  Once
    100 ms have passed after the last notification exactly one pass has
    been started, with the session of the last notification, and it has
    run: the calls made, the state of the client, the published user
    and the notifications are those of one run of [handleSession] on
    that session, started 100 ms after the last notification from the
    client, the published user and the notifications as they were
    before the burst. *)
Theorem burst_reconciles_once captured (w : World S) event0 session0
  (ns : list Notification) d :
  debounce_inv (prov w) ->
  debounced_event event0 = true ->
  Forall in_burst ns ->
  100 <= d ->
  (passes (deliver_burst captured ns (deliver event0 session0 w))
   = passes w
   /\ calls (deliver_burst captured ns (deliver event0 session0 w))
      = calls w
   /\ svc (deliver_burst captured ns (deliver event0 session0 w))
      = svc w)
  /\ passes (advance captured d
               (deliver_burst captured ns (deliver event0 session0 w)))
     = passes w ++ [last_session session0 ns]
  /\ exists wf r w',
       svc wf = svc w /\ calls wf = calls w
       /\ user (prov wf) = user (prov w)
       /\ toasts (prov wf) = toasts (prov w)
       /\ now (prov wf)
          = now (prov (deliver_burst captured ns
                         (deliver event0 session0 w))) + 100
       /\ run (handleSession captured (last_session session0 ns)) wf
          = (Returned r, w')
       /\ svc (advance captured d
                 (deliver_burst captured ns (deliver event0 session0 w)))
          = svc w'
       /\ calls (advance captured d
                   (deliver_burst captured ns (deliver event0 session0 w)))
          = calls w'
       /\ user (prov (advance captured d
                        (deliver_burst captured ns
                           (deliver event0 session0 w))))
          = r
       /\ toasts (prov (advance captured d
                          (deliver_burst captured ns
                             (deliver event0 session0 w))))
          = toasts (prov w').
Proof.
  intros Hinv Hev Hall Hd.
  destruct (deliver_debounced event0 session0 w Hev Hinv)
    as (Hp & Hid & Hps & Hnow).
  destruct (deliver_idle event0 session0 w Hev) as (Hs0 & Hc0 & Hu0 & Ht0).
  rewrite <- Hnow in Hp.
  destruct (burst_pending captured ns _ _ _ Hall Hp Hid)
    as (i' & Hp' & Hps').
  destruct (burst_idle captured ns _ _ _ Hall Hp Hid)
    as (Hs1 & Hc1 & Hu1 & Ht1).
  split; [repeat split; congruence|].
  split.
  { rewrite (debounce_fires captured d _ _ _ _ Hp' ltac:(lia)).
    congruence. }
  destruct (advance_one captured d _ _ _ _ Hp' ltac:(lia))
    as (wf & r & w' & Hs & Hc & Hu & Ht & Hn & Hrun & Hrest).
  exists wf, r, w'.
  split; [congruence|]. split; [congruence|]. split; [congruence|].
  split; [congruence|]. split; [exact Hn|]. split; [exact Hrun|].
  exact Hrest.
Qed.
End Loop.

(** *** The password-update window *)

Section Window.
Context {S : Type} `{Supabase S}.

Lemma deliver_signed_out session (w : World S) :
  user (prov (deliver SIGNED_OUT session w))
  = if isProcessingPasswordUpdate (prov w) then user (prov w) else None.
Proof.
  destruct w as [sv p c ps]. simpl.
  destruct (isProcessingPasswordUpdate p); reflexivity.
Qed.

Lemma deliver_signed_in session (w : World S) :
  isProcessingPasswordUpdate (prov (deliver SIGNED_IN session w)) = false.
Proof.
  destruct w as [sv p c ps]. simpl.
  destruct (isProcessingPasswordUpdate p) eqn:E; simpl;
    destruct (timeoutId p); simpl; congruence.
Qed.

Lemma deliver_user_updated session (w : World S) :
  isProcessingPasswordUpdate (prov (deliver USER_UPDATED session w)) = true
  /\ timers (prov (deliver USER_UPDATED session w))
     = timers (prov w)
       ++ [{| tid := next_tid (prov w); due := now (prov w) + 2000;
              action := ClearProcessingPasswordUpdate |}]
  /\ now (prov (deliver USER_UPDATED session w)) = now (prov w).
Proof. destruct w as [sv p c ps]. simpl. tauto. Qed.

(** What a successful [updateUserPassword] leaves behind: its own flag
    set, the timer that clears it 3000 ms later, and nothing else the
    subscriber reads. *)
Lemma updateUserPassword_success u oldPass newPass (w w' : World S) :
  run (updateUserPassword (Some u) oldPass newPass) w = (Returned true, w') ->
  isPasswordUpdateFlow (prov w') = true
  /\ timers (prov w')
     = timers (prov w)
       ++ [{| tid := next_tid (prov w); due := now (prov w) + 3000;
              action := ClearPasswordUpdateFlow |}]
  /\ isProcessingPasswordUpdate (prov w')
     = isProcessingPasswordUpdate (prov w)
  /\ user (prov w') = user (prov w).
Proof.
  destruct w as [sv [] c ps].
  unfold updateUserPassword, toast, log_.
  split_run.
  all: simpl.
  all: try match goal with
           | |- context [match ?e with Nullish => _ | Thrown _ => _ end] =>
               destruct e
           end.
  all: split_run.
  all: intros Hrun; inversion Hrun; subst; simpl; tauto.
Qed.

(** C3 (as amended).  The subscriber ignores SIGNED_OUT while its own
    variable [isProcessingPasswordUpdate] is set, and that variable is set
    by a USER_UPDATED notification, not by [updateUserPassword].  After a
    USER_UPDATED delivered while no earlier reset timer is pending, a
    SIGNED_OUT that comes less than 2000 ms later leaves the published
    user as it is; one that comes 2000 ms later or more clears it; and
    after a SIGNED_IN, a SIGNED_OUT clears it however much time has
    passed.  A successful [updateUserPassword] sets [isPasswordUpdateFlow]
    and a timer that clears it after 3000 ms; a SIGNED_OUT delivered
    right after it, with no USER_UPDATED in between, clears the published
    user. *)
Theorem sign_out_ignored_after_user_updated captured (w : World S)
  session session' dt :
  (forall t, In t (timers (prov w)) -> is_reset t = false) ->
  0 <= dt ->
  (dt < 2000 ->
   user (prov (deliver SIGNED_OUT session'
                 (advance captured dt (deliver USER_UPDATED session w))))
   = user (prov (advance captured dt (deliver USER_UPDATED session w))))
  /\ (2000 <= dt ->
      user (prov (deliver SIGNED_OUT session'
                    (advance captured dt (deliver USER_UPDATED session w))))
      = None)
  /\ (forall (w2 : World S),
        user (prov (deliver SIGNED_OUT session'
                      (advance captured dt (deliver SIGNED_IN session w2))))
        = None)
  /\ (forall u oldPass newPass (w' : World S),
        isProcessingPasswordUpdate (prov w) = false ->
        run (updateUserPassword (Some u) oldPass newPass) w
        = (Returned true, w') ->
        isPasswordUpdateFlow (prov w') = true
        /\ (exists t, In t (timers (prov w'))
                      /\ action t = ClearPasswordUpdateFlow
                      /\ due t = now (prov w) + 3000)
        /\ user (prov (deliver SIGNED_OUT session' w')) = None).
Proof.
  intros Hnone Hdt.
  destruct (deliver_user_updated session w) as (Hflag & Htimers & Hnow).
  repeat split.
  - intros Hlt. rewrite deliver_signed_out, advance_processing.
    destruct (existsb _ _) eqn:E.
    + apply due_reset_iff in E as (t & Hin & Hdue & Hreset).
      rewrite Htimers in Hin. rewrite Hnow in Hdue.
      apply in_app_iff in Hin as [Hin|[<-|[]]].
      * rewrite (Hnone t Hin) in Hreset. discriminate.
      * simpl in Hdue. lia.
    + rewrite Hflag. reflexivity.
  - intros Hge. rewrite deliver_signed_out, advance_processing.
    destruct (existsb _ _) eqn:E; [reflexivity|].
    assert (existsb is_reset
              (sort_timers
                 (filter
                    (fun t => due t ≤ now (prov (deliver USER_UPDATED session w)) + dt)
                    (timers (prov (deliver USER_UPDATED session w)))))
            = true) as E'; [|congruence].
    apply due_reset_iff. eexists. rewrite Htimers, Hnow.
    split; [apply in_app_iff; right; left; reflexivity|].
    simpl. split; [lia | reflexivity].
  - intros w2. rewrite deliver_signed_out, advance_processing.
    rewrite deliver_signed_in. destruct (existsb _ _); reflexivity.
  - apply (updateUserPassword_success _ _ _ _ _ H1).
  - destruct (updateUserPassword_success _ _ _ _ _ H1) as (_ & Ht & _).
    eexists. rewrite Ht. split; [apply in_app_iff; right; left; reflexivity|].
    simpl. tauto.
  - destruct (updateUserPassword_success _ _ _ _ _ H1) as (_ & _ & Hp & _).
    rewrite deliver_signed_out, Hp, H0. reflexivity.
Qed.
End Window.


Lemma burst_reconciles_once_witness :
  passes (advance false 100
            (deliver_burst false
               [(10, INITIAL_SESSION, Some ana_expired);
                (40, SIGNED_IN, Some ana_session)]
               (deliver SIGNED_IN None (world officer_script some_day))))
  = [Some ana_session]
  /\ calls (advance false 100
              (deliver_burst false
                 [(10, INITIAL_SESSION, Some ana_expired);
                  (40, SIGNED_IN, Some ana_session)]
                 (deliver SIGNED_IN None (world officer_script some_day))))
     = [CSelectSingle "app_user" "7f3c"
          (Returned {| q_data := Some ana_officer_row; q_error := None |});
        CSelectApplicant "7f3c"
          (Returned {| q_data := None; q_error := None |})].
Proof.
  destruct (burst_reconciles_once false (world officer_script some_day)
              SIGNED_IN None
              [(10, INITIAL_SESSION, Some ana_expired);
               (40, SIGNED_IN, Some ana_session)] 100)
    as (_ & Hpasses & wf & r & w' & Hs & Hc & _ & _ & Hn & Hrun & _
        & Hcalls & _).
  - apply debounce_inv_mounted.
  - reflexivity.
  - repeat constructor; simpl; lia.
  - lia.
  - split; [exact Hpasses|].
    rewrite Hcalls.
    destruct wf as [sv p c ps]. simpl in Hs, Hc, Hn. subst sv c.
    destruct p. simpl in Hn. subst.
    vm_compute in Hrun. injection Hrun as _ <-. reflexivity.
Defined.


Lemma sign_out_ignored_after_user_updated_witness :
  user (prov (deliver SIGNED_OUT None
                (advance false 1500
                   (deliver USER_UPDATED (Some ana_session)
                      (signed_in officer_script some_day)))))
  = Some ana_user
  /\ user (prov (deliver SIGNED_OUT None
                   (advance false 2000
                      (deliver USER_UPDATED (Some ana_session)
                         (signed_in officer_script some_day)))))
     = None.
Proof.
  split.
  - destruct (sign_out_ignored_after_user_updated false
                (signed_in officer_script some_day)
                (Some ana_session) None 1500) as (Hin & _);
      [intros t [] | lia |].
    rewrite (Hin ltac:(lia)). vm_compute. reflexivity.
  - destruct (sign_out_ignored_after_user_updated false
                (signed_in officer_script some_day)
                (Some ana_session) None 2000) as (_ & Hout & _);
      [intros t [] | lia |].
    exact (Hout ltac:(lia)).
Defined.
(** C3 as stated fails.  Ana changes her password without giving the old
    one: [updateUserPassword] returns true and its flag is set.  (1) Ten
    milliseconds later, well inside the window, a SIGNED_OUT notification
    arrives with no USER_UPDATED before it: the published user is
    cleared.  (2) With a USER_UPDATED delivered just before the call
    returns, a SIGNED_OUT that arrives 2500 ms later finds the flag of
    [updateUserPassword] still set, and clears the published user all the
    same. *)
Lemma password_window_counterexample :
  (fst (run (updateUserPassword (Some ana_user) "" "n3w-pass")
          (signed_in password_updated_script some_day)) = Returned true
   /\ isPasswordUpdateFlow
        (prov (advance false 10
                 (snd (run (updateUserPassword (Some ana_user) ""
                              "n3w-pass")
                         (signed_in password_updated_script some_day)))))
      = true
   /\ user (prov (advance false 10
                    (snd (run (updateUserPassword (Some ana_user) ""
                                 "n3w-pass")
                            (signed_in password_updated_script some_day)))))
      = Some ana_user
   /\ user (prov (deliver SIGNED_OUT None
                    (advance false 10
                       (snd (run (updateUserPassword (Some ana_user) ""
                                    "n3w-pass")
                               (signed_in password_updated_script
                                  some_day))))))
      = None)
  /\ (fst (run (updateUserPassword (Some ana_user) "" "n3w-pass")
             (deliver USER_UPDATED (Some ana_session)
                (signed_in password_updated_script some_day)))
      = Returned true
      /\ isPasswordUpdateFlow
           (prov (advance false 2500
                    (snd (run (updateUserPassword (Some ana_user) ""
                                 "n3w-pass")
                            (deliver USER_UPDATED (Some ana_session)
                               (signed_in password_updated_script
                                  some_day))))))
         = true
      /\ user (prov (advance false 2500
                       (snd (run (updateUserPassword (Some ana_user) ""
                                    "n3w-pass")
                               (deliver USER_UPDATED (Some ana_session)
                                  (signed_in password_updated_script
                                     some_day))))))
         = Some ana_user
      /\ user (prov (deliver SIGNED_OUT None
                       (advance false 2500
                          (snd (run (updateUserPassword (Some ana_user) ""
                                       "n3w-pass")
                                  (deliver USER_UPDATED (Some ana_session)
                                     (signed_in password_updated_script
                                        some_day)))))))
         = None).
Proof. vm_compute. repeat split. Qed.

(** ** The rest of the provider *)

(** *** Sign-out, refresh and mounting *)

Section Exposed.
Context {S : Type} `{Supabase S}.

Lemma run_finally {A} (m : Prog A) (f : Prog unit) (w : World S) :
  run (finally_ m f) w
  = match run m w with
    | (Returned a, w') =>
        match run f w' with
        | (Returned _, w'') => (Returned a, w'')
        | (Threw e, w'') => (Threw e, w'')
        end
    | (Threw e, w') =>
        match run f w' with
        | (Returned _, w'') => (Threw e, w'')
        | (Threw e', w'') => (Threw e', w'')
        end
    end.
Proof.
  revert w; induction m as [a|e|X op k IH|X op k IH]; intros w; simpl.
  - rewrite run_bind. destruct (run f w) as [[?|?] ?]; reflexivity.
  - rewrite run_bind. destruct (run f w) as [[?|?] ?]; reflexivity.
  - destruct (do_local op (prov w)) as [x p']. apply IH.
  - destruct (respond op (svc w)) as [o s']. apply IH.
Qed.

Lemma logout_cases (w w' : World S) res :
  run logout w = (res, w') ->
  user (prov w') = user (prov w)
  /\ toasts (prov w') = toasts (prov w)
  /\ exists o,
       calls w' = calls w ++ [CSignOut o]
       /\ match o with
          | Returned _ =>
              res = Returned tt
              /\ pushes (prov w') = pushes (prov w) ++ ["/auth"]
          | Threw e =>
              res = Threw e /\ pushes (prov w') = pushes (prov w)
          end.
Proof.
  destruct w as [sv [] c ps]. unfold logout.
  split_run.
  all: intros Hrun; inversion Hrun; subst; simpl.
  all: repeat (split; [reflexivity|]); eexists; split; [reflexivity|].
  all: split; reflexivity.
Qed.

Lemma handleRefreshTokenError_cases (w : World S) :
  exists w' o,
    run handleRefreshTokenError w = (Returned tt, w')
    /\ calls w' = calls w ++ [CSignOut o]
    /\ match o with
       | Returned _ =>
           user (prov w') = None
           /\ toasts (prov w') = toasts (prov w) ++ [sessionExpiredToast]
       | Threw _ =>
           user (prov w') = user (prov w)
           /\ toasts (prov w') = toasts (prov w)
       end.
Proof.
  destruct w as [sv [] c ps]. unfold handleRefreshTokenError, toast, log_.
  split_run.
  all: do 2 eexists; split; [reflexivity|]; split; [reflexivity|].
  all: split; reflexivity.
Qed.

(** X1.  [logout]: when the sign-out call returns, with an error or without,
    [/auth] is pushed; when it throws, [logout] throws and nothing is
    pushed.  [logout] itself never clears the published user and shows no
    notification. *)
Theorem logout_navigates (w w' : World S) res :
  run logout w = (res, w') ->
  user (prov w') = user (prov w)
  /\ toasts (prov w') = toasts (prov w)
  /\ exists o,
       calls w' = calls w ++ [CSignOut o]
       /\ match o with
          | Returned _ =>
              res = Returned tt
              /\ pushes (prov w') = pushes (prov w) ++ ["/auth"]
          | Threw e =>
              res = Threw e /\ pushes (prov w') = pushes (prov w)
          end.
Proof. exact (logout_cases w w' res). Qed.

(** X2.  [handleRefreshTokenError] never throws.  When the sign-out returns it
    publishes null and shows "Session Expired"; when the sign-out throws
    it leaves the published user and shows nothing. *)
Theorem handleRefreshTokenError_settles (w : World S) :
  exists w' o,
    run handleRefreshTokenError w = (Returned tt, w')
    /\ calls w' = calls w ++ [CSignOut o]
    /\ match o with
       | Returned _ =>
           user (prov w') = None
           /\ toasts (prov w') = toasts (prov w) ++ [sessionExpiredToast]
       | Threw _ =>
           user (prov w') = user (prov w)
           /\ toasts (prov w') = toasts (prov w)
       end.
Proof. exact (handleRefreshTokenError_cases w). Qed.

(** X3.  The [catch] of the debounced callback is never entered: the callback
    is the pass itself, so it never reaches [handleRefreshTokenError]. *)
Theorem debouncedCallback_is_the_pass captured processing session
  (w : World S) :
  run (debouncedCallback captured processing session) w
  = (Returned tt, snd (run (handleSession captured session) w)).
Proof.
  unfold debouncedCallback. rewrite run_try_catch, run_bind.
  destruct (handleSession_returns captured session w)
    as (r & w' & Hrun & _).
  rewrite Hrun. reflexivity.
Qed.
End Exposed.

(** *** More on the reconciliation pass *)

Section Pass.
Context {S : Type} `{Supabase S}.

(** X4.  Once the profile row has been read, the read of the applicant record
    cannot make the pass fail: whatever it answers, and also when it
    throws, the pass returns and publishes a user with the role of the
    row and no notification is shown.  When the read brings no data (an
    error, a thrown exception, no record) the user has no registration
    status, voter id or precinct. *)
Theorem applicant_read_is_never_fatal captured sess (w w' : World S)
  res cs f row :
  run (handleSession captured (Some sess)) w = (res, w') ->
  calls w' = calls w ++ cs ->
  head (profile_fetches cs) = Some f ->
  row_of f = Some row ->
  exists u a,
    res = Returned (Some u)
    /\ user (prov w') = Some u
    /\ id u = u_id (s_user sess)
    /\ email u = u_email (s_user sess)
    /\ role u = row_role row
    /\ username u
       = or_empty (or_else (row_username row)
                     (u_meta_username (s_user sess)))
    /\ toasts (prov w') = toasts (prov w)
    /\ last cs = Some (CSelectApplicant (u_id (s_user sess)) a)
    /\ (row_of a = None ->
        registrationStatus u = None /\ voterId u = None
        /\ precinct u = None).
Proof.
  destruct w as [s [] c ps].
  unfold_pass.
  split_run.
  all: intros Hrun Hcalls Hf Hrow; leaf Hrun Hcalls; try discriminate.
  all: injection Hf as <-; simpl in Hrow; try discriminate.
  all: injection Hrow as <-.
  all: do 2 eexists; do 8 (split; [reflexivity|]).
  all: simpl; intros Ha; try discriminate; repeat split.
Qed.

(** X5.  Every call of a pass concerns the user of the session it was given:
    reads of that user's profile and applicant record and, at most once,
    the insert of that user's profile with role 'public'.  A pass makes
    at most four calls and updates nothing. *)
Theorem pass_touches_only_its_own_profile captured sess (w w' : World S)
  res cs :
  run (handleSession captured (Some sess)) w = (res, w') ->
  calls w' = calls w ++ cs ->
  Forall (own_call (s_user sess)) cs
  /\ (length (writes cs) <= 1)%nat
  /\ (length cs <= 4)%nat.
Proof.
  destruct w as [s [] c ps].
  unfold_pass.
  split_run.
  all: intros Hrun Hcalls; leaf Hrun Hcalls.
  all: split; [repeat (once constructor); simpl; auto | simpl; lia].
Qed.

(** X6.  A session that is not expired (no [expires_at], an [expires_at] of 0,
    or one not earlier than the clock) is neither refreshed nor signed
    out. *)
Theorem unexpired_session_is_not_refreshed captured sess (w w' : World S)
  res cs :
  match s_expires_at sess with
  | Some e => e = 0 \/ now (prov w) <= e * 1000
  | None => True
  end ->
  run (handleSession captured (Some sess)) w = (res, w') ->
  calls w' = calls w ++ cs ->
  (forall o, ~ In (CRefreshSession o) cs)
  /\ (forall o, ~ In (CSignOut o) cs).
Proof.
  intros Hfresh.
  destruct w as [s [] c ps]. simpl in Hfresh.
  unfold_pass. simpl.
  destruct (s_expires_at sess) as [e|] eqn:He; simpl.
  - match goal with
    | |- context [isExpired e ?t] =>
        assert (isExpired e t = false) as ->
    end.
    { unfold isExpired. destruct Hfresh as [-> | Hle]; [reflexivity|].
      apply andb_false_iff. right. apply Z.ltb_ge. exact Hle. }
    split_run.
    all: intros Hrun Hcalls; leaf Hrun Hcalls.
    all: split; intros o0; simpl; intros Hin;
      repeat (destruct Hin as [Hin|Hin]; try discriminate); contradiction.
  - split_run.
    all: intros Hrun Hcalls; leaf Hrun Hcalls.
    all: split; intros o0; simpl; intros Hin;
      repeat (destruct Hin as [Hin|Hin]; try discriminate); contradiction.
Qed.

(** X7.  A pass pushes no route, sets no timer and leaves [isLoading],
    [isPasswordUpdateFlow] and the variables of the subscription alone. *)
Theorem pass_leaves_routing_and_timers_alone captured session
  (w : World S) :
  pushes (prov (snd (run (handleSession captured session) w)))
  = pushes (prov w)
  /\ timers (prov (snd (run (handleSession captured session) w)))
     = timers (prov w)
  /\ isLoading (prov (snd (run (handleSession captured session) w)))
     = isLoading (prov w)
  /\ isPasswordUpdateFlow
       (prov (snd (run (handleSession captured session) w)))
     = isPasswordUpdateFlow (prov w)
  /\ isProcessingPasswordUpdate
       (prov (snd (run (handleSession captured session) w)))
     = isProcessingPasswordUpdate (prov w)
  /\ timeoutId (prov (snd (run (handleSession captured session) w)))
     = timeoutId (prov w).
Proof.
  destruct (Quiet_run _ w (handleSession_Quiet captured session))
    as (Ht & _ & Hp & Hl & Hf).
  destruct (run_frame (handleSession captured session) w)
    as (_ & Hproc & Hid & _).
  repeat split; assumption.
Qed.
End Pass.

(** *** Sign-up, password reset and e-mail confirmation *)

Ltac split_site :=
  repeat
    (simpl;
     match goal with
     | |- context [?answer _ ?q] =>
         lazymatch type of q with
         | SiteCall _ => idtac
         end;
         let o := fresh "ans" in
         destruct (answer _ q) as [o|o] eqn:?;
         [ lazymatch type of o with
           | QueryResp _ => destruct o
           | AuthResp => destruct o
           | SignUpResp => destruct o
           | _ => idtac
           end | ]
     | |- context [match ?x with Some _ => _ | None => _ end] =>
         destruct x eqn:?
     | |- context [if ?b then _ else _] => destruct b eqn:?
     end).

(** X8.  [signUp] first asks whether a profile with the e-mail exists.  It asks
    for the account to be created only after that check has returned
    without error and found none, it asks at most once, and then with the
    given e-mail, password and username and the [/auth] page of the site
    as the page to come back to.  When the check reports an error or
    finds a profile, the only thing done after the check is one
    destructive notification.  In every case at most one notification is
    shown. *)
Theorem signUp_checks_before_creating
  (answer : forall X, SiteCall X -> Outcome X) b username_ email_
  passwordAttempt :
  let evs := snd (site_run answer (signUp b username_ email_ passwordAttempt)) in
  head evs = Some (AskedEmails email_)
  /\ (forall e p u r,
        In (AskedSignUp e p u r) evs ->
        e = email_ /\ p = passwordAttempt /\ u = username_
        /\ (exists site, site_of b = Some site /\ r = site +:+ "/auth")
        /\ exists found_,
             answer _ (SelectEmails email_)
             = Returned {| q_data := found_; q_error := None |}
             /\ (found_ = None \/ found_ = Some []))
  /\ (length (List.filter asked_sign_up evs) <= 1)%nat
  /\ (forall r,
        answer _ (SelectEmails email_) = Returned r ->
        q_error r <> None \/ (exists x l, q_data r = Some (x :: l)) ->
        exists t, evs = [AskedEmails email_; Shown t]
                  /\ destructive t = true)
  /\ (length (shown evs) <= 1)%nat.
Proof.
  unfold signUp, show, tell, ask.
  split_site.
  all: simpl.
  all: refine (conj eq_refl (conj _ (conj _ (conj _ _))));
    try (simpl; lia).
  all: try (intros ? ? ? ? Hin; simpl in Hin;
            repeat (destruct Hin as [Hin|Hin]; try discriminate);
            try contradiction;
            injection Hin as <- <- <- <-;
            refine (conj eq_refl (conj eq_refl (conj eq_refl
                      (conj (ex_intro _ _ (conj _ eq_refl))
                            (ex_intro _ _ (conj eq_refl _))))))).
  all: try (intros ? ?; discriminate).
  all: try (intros ? [= <-] [?|(? & ? & ?)]; simpl in *;
            first [ congruence
                  | eexists; split; reflexivity
                  | simplify_eq; simpl in *; discriminate ]).
  all: try reflexivity.
  all: try (left; reflexivity).
  all: try (right; reflexivity).
  all: try (right; f_equal;
            match goal with
            | Hl : negb (Nat.eqb (length ?l) 0) = false |- _ =>
                destruct l; first [reflexivity | discriminate]
            end).
Qed.

(** X9.  [sendPasswordResetEmail] first asks for a mail that leads back to the
    [/public/reset-password] page of the site.  When the call returns it
    returns true exactly when the call reported no error, and shows one
    notification: a plain one on success, a destructive one with the
    message of the error otherwise.  When the call throws it throws, and
    nothing is shown. *)
Theorem sendPasswordResetEmail_outcomes
  (answer : forall X, SiteCall X -> Outcome X) b email_ site
  (Hsite : site_of b = Some site) :
  let r := site_run answer (sendPasswordResetEmail b email_) in
  let sent := ResetPasswordForEmail email_ (site +:+ "/public/reset-password") in
  head (snd r) = Some (event_of sent)
  /\ match answer _ sent with
     | Returned None =>
         fst r = Returned true
         /\ exists t, shown (snd r) = [t] /\ destructive t = false
     | Returned (Some error) =>
         fst r = Returned false
         /\ shown (snd r)
            = [{| title := "Error"; description := err_message error;
                  destructive := true |}]
     | Threw e => fst r = Threw e /\ shown (snd r) = []
     end.
Proof.
  unfold sendPasswordResetEmail, show, tell, ask. rewrite Hsite. simpl.
  destruct (answer _ _) as [[error|]|e]; simpl;
    destruct (development b); simpl;
    repeat split; eexists; split; reflexivity.
Qed.

(** X10.  [handleEmailConfirmation] never throws.  It asks for the session
    exactly when there is a window whose location hash mentions
    [access_token]; it cleans the URL exactly when, besides, that call
    returned a session; when the call throws it shows "Verification
    Error". *)
Theorem handleEmailConfirmation_outcomes
  (answer : forall X, SiteCall X -> Outcome X) b :
  let r := site_run answer (handleEmailConfirmation b) in
  let confirming :=
    exists w, window b = Some w
              /\ has_substring "access_token" (location_hash w) in
  fst r = Returned tt
  /\ (In AskedSession (snd r) <-> confirming)
  /\ (In UrlCleaned (snd r) <->
      confirming
      /\ exists current session,
           answer _ SiteGetSession = Returned current
           /\ ar_session current = Some session)
  /\ (confirming ->
      forall e, answer _ SiteGetSession = Threw e ->
      exists t, shown (snd r) = [t] /\ title t = "Verification Error").
Proof.
  unfold handleEmailConfirmation, show, tell, ask.
  destruct (window b) as [w|]; simpl.
  2:{ split; [reflexivity|].
      split; [split; [intros [] | intros (? & ? & _); discriminate]|].
      split; [split; [intros [] | intros [(? & ? & _) _]; discriminate]|].
      intros (? & ? & _); discriminate. }
  destruct (includes "access_token" (location_hash w)) eqn:Hinc; simpl.
  2:{ assert (~ has_substring "access_token" (location_hash w)) as Hno
        by (rewrite <- includes_has_substring; congruence).
      split; [reflexivity|].
      split; [split; [intros [] | intros (? & [= <-] & ?); contradiction]|].
      split; [split; [intros []
                     | intros [(? & [= <-] & ?) _]; contradiction]|].
      intros (? & [= <-] & ?); contradiction. }
  apply includes_has_substring in Hinc.
  assert (exists w0, Some w = Some w0
                     /\ has_substring "access_token" (location_hash w0))
    as Hconf by eauto.
  destruct (answer _ SiteGetSession) as [[[session|] err]|e]; simpl.
  - split; [reflexivity|]. split; [tauto|]. split.
    + split; [|tauto]. intros _. split; [exact Hconf|]. eauto.
    + intros _ ? [=].
  - split; [reflexivity|]. split; [tauto|]. split.
    + split; [intros [?|[]]; discriminate|].
      intros (_ & ? & ? & [= <-] & Hs). discriminate.
    + intros _ ? [=].
  - split; [reflexivity|]. split; [tauto|]. split.
    + split; [intros [?|[?|[?|[]]]]; discriminate|].
      intros (_ & ? & ? & [=] & _).
    + intros _ ? _. eexists. split; reflexivity.
Qed.

(** *** More on timers and notifications *)

Section Notifications.
Context {S : Type} `{Supabase S}.


Lemma deliver_other event session (w : World S) :
  debounced_event event = false ->
  pending (timers (prov (deliver event session w)))
  = pending (timers (prov w))
  /\ passes (deliver event session w) = passes w
  /\ now (prov (deliver event session w)) = now (prov w).
Proof.
  intros Hev. destruct w as [sv p c ps].
  destruct event; try discriminate; simpl.
  - destruct (isProcessingPasswordUpdate p); simpl; tauto.
  - tauto.
  - unfold pending. rewrite omap_app. simpl. rewrite app_nil_r. tauto.
Qed.

(** X11.  TOKEN_REFRESHED, USER_UPDATED and SIGNED_OUT neither start, cancel
    nor postpone a pass: when one of them arrives between a notification
    and its debounced pass, that pass still starts 100 ms after the
    notification, with that notification's session. *)
Theorem pending_pass_survives_other_notifications captured (w : World S)
  event0 session0 event1 session1 g d :
  debounce_inv (prov w) ->
  debounced_event event0 = true ->
  debounced_event event1 = false ->
  0 <= g < 100 ->
  100 <= g + d ->
  passes (deliver event1 session1
            (advance captured g (deliver event0 session0 w)))
  = passes w
  /\ passes (advance captured d
               (deliver event1 session1
                  (advance captured g (deliver event0 session0 w))))
     = passes w ++ [session0].
Proof.
  intros Hinv Hev0 Hev1 Hg Hd.
  destruct (deliver_debounced event0 session0 w Hev0 Hinv)
    as (Hp & _ & Hps & Hnow).
  rewrite <- Hnow in Hp.
  destruct (quiet_gap captured g _ _ _ _ Hp ltac:(lia))
    as (Hp1 & _ & Hps1 & Hnow1).
  destruct (deliver_other event1 session1
              (advance captured g (deliver event0 session0 w)) Hev1)
    as (Hp2 & Hps2 & Hnow2).
  rewrite <- Hp2 in Hp1.
  split; [congruence|].
  rewrite (debounce_fires captured d _ _ _ _ Hp1); [congruence|].
  rewrite Hnow2, Hnow1. lia.
Qed.


(** X13.  A second USER_UPDATED does not extend the window opened by the
    first: the timer of the first still resets the flag 2000 ms after the
    first, so a SIGNED_OUT after that clears the published user even
    though less than 2000 ms have passed since the second. *)
Theorem second_user_updated_does_not_extend_the_window captured
  (w : World S) session1 session2 session' g dt :
  0 <= g < 2000 ->
  2000 <= g + dt ->
  user (prov (deliver SIGNED_OUT session'
                (advance captured dt
                   (deliver USER_UPDATED session2
                      (advance captured g
                         (deliver USER_UPDATED session1 w))))))
  = None.
Proof.
  intros Hg Hdt.
  rewrite deliver_signed_out, advance_processing.
  destruct (deliver_user_updated session1 w) as (_ & Ht1 & Hn1).
  destruct (advance_frame captured g (deliver USER_UPDATED session1 w))
    as (Ht2 & _ & Hn2).
  destruct (deliver_user_updated session2
              (advance captured g (deliver USER_UPDATED session1 w)))
    as (_ & Ht3 & Hn3).
  destruct (existsb _ _) eqn:E; [reflexivity|].
  assert (existsb is_reset
            (sort_timers
               (filter
                  (fun t =>
                     due t
                     ≤ now (prov (deliver USER_UPDATED session2
                                    (advance captured g
                                       (deliver USER_UPDATED session1 w))))
                       + dt)
                  (timers (prov (deliver USER_UPDATED session2
                                   (advance captured g
                                      (deliver USER_UPDATED session1 w)))))))
          = true) as E'; [|congruence].
  apply due_reset_iff.
  exists {| tid := next_tid (prov w); due := now (prov w) + 2000;
            action := ClearProcessingPasswordUpdate |}.
  split; [|split; [|reflexivity]].
  - rewrite Ht3. apply in_app_iff. left. rewrite Ht2.
    apply list_elem_of_In, list_elem_of_filter. split.
    + rewrite Hn1. simpl. lia.
    + rewrite Ht1. apply list_elem_of_In, in_app_iff. right. left.
      reflexivity.
  - rewrite Hn3, Hn2, Hn1. simpl. lia.
Qed.

(** X14.  A [logout] inside the window: the route [/auth] is pushed, but the
    SIGNED_OUT notification that follows is ignored and the user stays
    published. *)
Theorem logout_inside_the_window_keeps_the_user captured (w w1 : World S)
  session session' dt res :
  (forall t, In t (timers (prov w)) -> is_reset t = false) ->
  0 <= dt < 2000 ->
  run logout (advance captured dt (deliver USER_UPDATED session w))
  = (res, w1) ->
  user (prov (deliver SIGNED_OUT session' w1))
  = user (prov (advance captured dt (deliver USER_UPDATED session w)))
  /\ (res = Returned tt ->
      pushes (prov (deliver SIGNED_OUT session' w1))
      = pushes (prov (advance captured dt (deliver USER_UPDATED session w)))
        ++ ["/auth"]).
Proof.
  intros Hnone Hdt Hrun.
  destruct (deliver_user_updated session w) as (Hflag & Htimers & Hnow).
  assert (isProcessingPasswordUpdate
            (prov (advance captured dt (deliver USER_UPDATED session w)))
          = true) as Hopen.
  { rewrite advance_processing. destruct (existsb _ _) eqn:E.
    - apply due_reset_iff in E as (t & Hin & Hdue & Hreset).
      rewrite Htimers in Hin. rewrite Hnow in Hdue.
      apply in_app_iff in Hin as [Hin|[<-|[]]].
      + rewrite (Hnone t Hin) in Hreset. discriminate.
      + simpl in Hdue. lia.
    - exact Hflag. }
  pose proof (run_frame logout
                (advance captured dt (deliver USER_UPDATED session w)))
    as (_ & Hproc & _).
  rewrite Hrun in Hproc. cbn [snd] in Hproc. rewrite Hopen in Hproc.
  destruct (logout_cases _ _ _ Hrun) as (Huser & _ & o & _ & Ho).
  rewrite deliver_signed_out, Hproc. split; [exact Huser|].
  intros ->. destruct o as [x|e]; [|destruct Ho; discriminate].
  destruct Ho as [_ Hpush]. rewrite <- Hpush.
  destruct w1 as [sv1 p1 c1 ps1]. cbn in Hproc |- *.
  rewrite Hproc. reflexivity.
Qed.
End Notifications.

(** *** More on the route guard *)

(** X15.  The guard pushes a route for a signed-in user in two cases only: an
    officer on a path under [/public/], a public user on a path that
    begins with [/dashboard].  A user with any other role is never
    redirected. *)
Theorem route_guard_signed_in (u : AuthenticatedUser)
  (pathname target : string) :
  routeGuard false (Some u) pathname = Some target
  <-> (role u = "officer" /\ begins_with "/public/" pathname
       /\ target = "/dashboard")
      \/ (role u = "public" /\ begins_with "/dashboard" pathname
          /\ target = "/public/home").
Proof.
  unfold routeGuard, startsWith.
  destruct (String.eqb (role u) "officer") eqn:Eo;
    destruct (String.prefix "/public/" pathname) eqn:Ep;
    destruct (String.eqb (role u) "public") eqn:Eu;
    destruct (String.prefix "/dashboard" pathname) eqn:Ed;
    tests; simpl;
    repeat match goal with
           | H : String.prefix _ _ = true |- _ =>
               apply prefix_begins_with in H
           | H : String.prefix ?p ?s = false |- _ =>
               assert (~ begins_with p s)
                 by (rewrite <- prefix_begins_with; congruence);
               clear H
           end;
    split;
    try (intros [= <-]);
    try (intros [(Ha & Hb & ->)|(Ha & Hb & ->)]);
    try congruence; try contradiction; try discriminate;
    try (left; repeat split; assumption);
    try (right; repeat split; assumption).
Qed.

(** X16.  The guard does not loop: on the route it has pushed it pushes
    nothing. *)
Theorem route_guard_settles isLoading_ (user_ : option AuthenticatedUser)
  (pathname target : string) :
  routeGuard isLoading_ user_ pathname = Some target ->
  routeGuard isLoading_ user_ target = None.
Proof.
  unfold routeGuard, startsWith.
  destruct isLoading_; [discriminate|].
  destruct user_ as [u|].
  - destruct (String.eqb (role u) "officer") eqn:Eo; simpl.
    + destruct (String.prefix "/public/" pathname); simpl.
      * intros [= <-]. apply String.eqb_eq in Eo. rewrite Eo. reflexivity.
      * apply String.eqb_eq in Eo. rewrite Eo. simpl. discriminate.
    + destruct (String.eqb (role u) "public" &&
                String.prefix "/dashboard" pathname)%bool; [|discriminate].
      intros [= <-]. rewrite andb_false_r. reflexivity.
  - destruct (negb _ && negb _)%bool; [|discriminate].
    intros [= <-]. reflexivity.
Qed.

(** *** Passes and notifications *)

Section Counting.
Context {S : Type} `{Supabase S}.

Lemma pending_split (P : Timer -> Prop) `{forall t, Decision (P t)}
  (l : list Timer) :
  (length (pending (filter P l))
   + length (pending (filter (fun t => ¬ P t) l))
   = length (pending l))%nat.
Proof.
  unfold pending.
  induction l as [|t l IH]; [reflexivity|].
  rewrite !filter_cons. simpl.
  destruct (decide (P t)) as [Hp|Hp];
    destruct (decide (¬ P t)) as [Hn|Hn]; try tauto;
    simpl; destruct (pending_of t); simpl;
    unfold omap in *; lia.
Qed.

Lemma pending_sorted (l : list Timer) :
  length (pending (sort_timers l)) = length (pending l).
Proof.
  unfold pending. apply Permutation_length.
  rewrite sort_timers_perm. reflexivity.
Qed.

Lemma advance_count captured dt (w : World S) :
  (length (passes (advance captured dt w))
   + length (pending (timers (prov (advance captured dt w))))
   = length (passes w) + length (pending (timers (prov w))))%nat
  /\ (length (pending (timers (prov (advance captured dt w))))
      <= length (pending (timers (prov w))))%nat.
Proof.
  rewrite advance_passes.
  destruct (advance_frame captured dt w) as (-> & _ & _).
  rewrite length_app, length_map, pending_sorted.
  pose proof (pending_split (fun t => due t ≤ now (prov w) + dt)
                (timers (prov w))).
  lia.
Qed.

Lemma deliver_count event session (w : World S) :
  debounce_inv (prov w) ->
  (length (pending (timers (prov w))) <= 1)%nat ->
  (length (pending (timers (prov (deliver event session w)))) <= 1)%nat
  /\ (length (passes (deliver event session w))
      + length (pending (timers (prov (deliver event session w))))
      <= length (passes w) + length (pending (timers (prov w)))
         + (if debounced_event event then 1 else 0))%nat.
Proof.
  intros Hinv Hone.
  destruct (debounced_event event) eqn:Hev.
  - destruct (deliver_debounced event session w Hev Hinv)
      as (-> & _ & -> & _).
    simpl. lia.
  - destruct (deliver_other event session w Hev) as (-> & -> & _). lia.
Qed.

Lemma burst_count captured (ns : list Notification) :
  forall (w : World S),
    debounce_inv (prov w) ->
    (length (pending (timers (prov w))) <= 1)%nat ->
    let w' := deliver_burst captured ns w in
    (length (pending (timers (prov w'))) <= 1)%nat
    /\ (length (passes w') + length (pending (timers (prov w')))
        <= length (passes w) + length (pending (timers (prov w)))
           + debounced_count ns)%nat.
Proof.
  induction ns as [|[[elapsed event] session] ns IH]; intros w Hinv Hone.
  - simpl. unfold debounced_count. simpl. lia.
  - simpl.
    destruct (advance_count captured elapsed w) as (Ha & Hb).
    pose proof (debounce_inv_advance captured elapsed w Hinv) as Hinv1.
    destruct (deliver_count event session (advance captured elapsed w)
                Hinv1 ltac:(lia)) as (Hc & Hd).
    pose proof (debounce_inv_deliver event session _ Hinv1) as Hinv2.
    destruct (IH _ Hinv2 Hc) as (He & Hf).
    split; [exact He|].
    unfold debounced_count in *. simpl.
    destruct (debounced_event event); simpl; lia.
Qed.

(** X17.  Whatever notifications arrive after mounting, and whenever they
    arrive, at most one debounced pass is pending, and the passes started
    so far together with the pending one are no more than the
    notifications that reached the debounce: a notification never starts
    more than one pass, and TOKEN_REFRESHED, USER_UPDATED and SIGNED_OUT
    start none. *)
Theorem passes_bounded_by_notifications captured (ns : list Notification)
  (s : S) t0 :
  let w := deliver_burst captured ns (world s t0) in
  (length (pending (timers (prov w))) <= 1)%nat
  /\ (length (passes w) + length (pending (timers (prov w)))
      <= debounced_count ns)%nat.
Proof.
  destruct (burst_count captured ns (world s t0)
              (debounce_inv_mounted t0) ltac:(simpl; lia)) as (Ha & Hb).
  split; [exact Ha|]. simpl in Hb. exact Hb.
Qed.
End Counting.

(** A pass on no session: null is published and no call is made. *)
Lemma handleSession_null {S} `{Supabase S} captured (w : World S) :
  run (handleSession captured None) w
  = (Returned None, set_prov (set_user None (prov w)) w).
Proof. reflexivity. Qed.

Opaque handleSession.

Section Refresh.
Context {S : Type} `{Supabase S}.

(** X18.  [refreshUser] never throws, and whenever it goes on to reconcile, the
    session it reconciles is the one [getSession] returned: after a
    [getSession] error followed by a successful [refreshSession], the
    refreshed session is dropped, and when the failed [getSession] carried
    no session the published user becomes null. *)
Theorem refreshUser_reconciles_what_getSession_returned captured
  (w : World S) :
  exists w',
    run (refreshUser captured) w = (Returned tt, w')
    /\ (forall current s1,
          respond GetSession (svc w) = (Returned current, s1) ->
          (ar_error current = None ->
           w' = snd (run (handleSession captured (ar_session current))
                       (answered GetSession (Returned current) s1 w)))
          /\ (forall refreshed s2,
                ar_error current <> None ->
                respond RefreshSession s1 = (Returned refreshed, s2) ->
                ar_error refreshed = None ->
                w' = snd (run (handleSession captured (ar_session current))
                            (answered RefreshSession (Returned refreshed) s2
                               (set_prov
                                  (add_console ErrorLevel
                                     "Error getting session:" (prov w))
                                  (answered GetSession (Returned current)
                                     s1 w))))
                /\ (ar_session current = None ->
                    user (prov w') = None))).
Proof.
  destruct w as [sv p c ps]. unfold refreshUser, log_. simpl.
  destruct (respond GetSession sv) as [[[sess err]|e] s1] eqn:Hget; simpl.
  2:{ eexists. split; [reflexivity|]. intros ? ? [=]. }
  destruct err as [error|]; simpl.
  - destruct (respond RefreshSession s1) as [[[rs rerr]|e] s2] eqn:Href;
      simpl.
    2:{ eexists. split; [reflexivity|]. intros ? ? [= <- <-].
        split; [discriminate|]. intros ? ? _ Hr. rewrite Href in Hr.
        discriminate. }
    destruct rerr as [refreshError|]; simpl.
    + destruct (respond SignOut s2) as [[so|e] s3]; simpl;
        (eexists; split; [reflexivity|]); intros ? ? [= <- <-];
        (split; [discriminate|]); intros ? ? _ Hr; rewrite Href in Hr;
        injection Hr as <- <-; discriminate.
    + rewrite run_try_catch, run_bind.
      match goal with
      | |- context [run (handleSession captured sess) ?w2] =>
          destruct (handleSession_returns captured sess w2)
            as (r & w3 & Hpass & Hpub); rewrite Hpass
      end.
      eexists. split; [reflexivity|]. intros ? ? [= <- <-].
      split; [discriminate|]. intros ? ? _ Hr. rewrite Href in Hr.
      injection Hr as <- <-. intros _. simpl.
      rewrite Hpass. split; [reflexivity|].
      intros ->. rewrite handleSession_null in Hpass.
      injection Hpass as <- <-. reflexivity.
  - rewrite run_try_catch, run_bind.
    match goal with
    | |- context [run (handleSession captured sess) ?w2] =>
        destruct (handleSession_returns captured sess w2)
          as (r & w3 & Hpass & Hpub); rewrite Hpass
    end.
    eexists. split; [reflexivity|]. intros ? ? [= <- <-].
    split; [|intros ? ? Hne; contradiction].
    intros _. simpl. rewrite Hpass. reflexivity.
Qed.

(** X19.  [refreshUser] after a [getSession] error and a [refreshSession]
    error: it signs out and, when the sign-out returns, publishes null;
    it starts no pass, shows no notification and pushes no route. *)
Theorem refreshUser_gives_up captured (w w' : World S) res
  current s1 refreshed s2 so s3 :
  respond GetSession (svc w) = (Returned current, s1) ->
  ar_error current <> None ->
  respond RefreshSession s1 = (Returned refreshed, s2) ->
  ar_error refreshed <> None ->
  respond SignOut s2 = (Returned so, s3) ->
  run (refreshUser captured) w = (res, w') ->
  res = Returned tt
  /\ user (prov w') = None
  /\ calls w'
     = calls w ++ [CGetSession (Returned current);
                   CRefreshSession (Returned refreshed);
                   CSignOut (Returned so)]
  /\ toasts (prov w') = toasts (prov w)
  /\ pushes (prov w') = pushes (prov w).
Proof.
  intros Hget Herr Href Hrerr Hout.
  destruct w as [sv [] c ps]. unfold refreshUser, log_. simpl in *.
  rewrite Hget. destruct current as [sess [error|]]; [|contradiction].
  simpl. rewrite Href. destruct refreshed as [rs [rerr|]]; [|contradiction].
  simpl. rewrite Hout. simpl.
  intros [= <- <-]. simpl. rewrite <- !app_assoc. repeat split.
Qed.
End Refresh.

Section Mounting.
Context {S : Type} `{Supabase S}.

(** X20.  The read of the initial session, once [getSession] has returned.
    Without an error the session is reconciled and [isLoading] becomes
    false.  With an error no pass is started and [isLoading] is left as
    it was: from a freshly mounted provider it stays true, and the route
    guard pushes nothing. *)
Theorem initialSession_ends_loading_only_without_error captured
  (w w' : World S) res current s1 :
  respond GetSession (svc w) = (Returned current, s1) ->
  run (initialSession captured) w = (res, w') ->
  res = Returned tt
  /\ (ar_error current = None ->
      isLoading (prov w') = false
      /\ exists r w2,
           run (handleSession captured (ar_session current))
             (answered GetSession (Returned current) s1 w)
           = (Returned r, w2)
           /\ user (prov w') = r)
  /\ (ar_error current <> None ->
      isLoading (prov w') = isLoading (prov w)
      /\ passes w' = passes w
      /\ profile_fetches (calls w') = profile_fetches (calls w)
      /\ (isLoading (prov w) = true ->
          forall u pathname,
            routeGuard (isLoading (prov w')) u pathname = None)).
Proof.
  intros Hget. destruct w as [sv p c ps]. simpl in Hget.
  unfold initialSession, log_. simpl. rewrite Hget.
  destruct current as [sess [error|]]; simpl.
  - match goal with
    | |- run ?m ?w1 = _ -> _ =>
        assert (exists w2 o,
                  run m w1 = (Returned tt, w2)
                  /\ isLoading (prov w2) = isLoading (prov w1)
                  /\ passes w2 = passes w1
                  /\ (calls w2 = calls w1
                      \/ calls w2 = calls w1 ++ [CSignOut o]))
          as (w2 & o & Hrun & Hload & Hpass & Hcalls)
    end.
    { destruct (_ || _)%bool.
      - destruct (handleRefreshTokenError_cases
                    {| svc := s1;
                       prov := add_console ErrorLevel
                                 "Error getting initial session:" p;
                       calls := c ++ [CGetSession
                                        (Returned {| ar_session := sess;
                                                     ar_error := Some error |})];
                       passes := ps |})
          as (w2 & o & Hrun & Hcalls & _).
        exists w2, o. split; [exact Hrun|].
        pose proof (Quiet_run _ {| svc := s1;
                       prov := add_console ErrorLevel
                                 "Error getting initial session:" p;
                       calls := c ++ [CGetSession
                                        (Returned {| ar_session := sess;
                                                     ar_error := Some error |})];
                       passes := ps |} handleRefreshTokenError_Quiet)
          as (_ & _ & _ & Hl & _).
        pose proof (run_frame handleRefreshTokenError
                      {| svc := s1;
                       prov := add_console ErrorLevel
                                 "Error getting initial session:" p;
                       calls := c ++ [CGetSession
                                        (Returned {| ar_session := sess;
                                                     ar_error := Some error |})];
                       passes := ps |})
          as (_ & _ & _ & Hp).
        rewrite Hrun in Hl, Hp. simpl in Hl, Hp.
        split; [exact Hl|]. split; [exact Hp|]. right. exact Hcalls.
      - eexists. exists (Returned None). simpl.
        repeat split. left. reflexivity. }
    rewrite Hrun. intros [= <- <-]. simpl in Hload, Hpass, Hcalls.
    split; [reflexivity|]. split; [discriminate|]. intros _.
    split; [exact Hload|]. split; [exact Hpass|]. split.
    + unfold profile_fetches.
      destruct Hcalls as [-> | ->]; rewrite !omap_app; simpl;
        rewrite ?app_nil_r; reflexivity.
    + intros Htrue u pathname. rewrite Hload. simpl in Htrue.
      rewrite Htrue. reflexivity.
  - rewrite run_bind, run_finally.
    match goal with
    | |- context [run (handleSession captured sess) ?w1] =>
        destruct (handleSession_returns captured sess w1)
          as (r & w2 & Hrun & Hpub); rewrite Hrun
    end.
    destruct w2 as [sv2 p2 c2 ps2]. simpl.
    intros [= <- <-]. simpl.
    split; [reflexivity|]. split; [|intros Hne; contradiction].
    intros _. split; [reflexivity|].
    exists r. eexists. split; [reflexivity | exact Hpub].
Qed.

(** X21.  [login] and [isLoading]: when the sign-in call returns, [login]
    returns with [isLoading] false; an answer with neither error nor
    session brings no notification, no route and no pass.  When the
    sign-in call throws, [login] throws and [isLoading] is left true. *)
Theorem login_loading captured email_ passwordAttempt (w w' : World S)
  res o s1 :
  respond (SignInWithPassword email_ passwordAttempt) (svc w) = (o, s1) ->
  run (login captured email_ passwordAttempt) w = (res, w') ->
  match o with
  | Returned r =>
      res = Returned tt
      /\ isLoading (prov w') = false
      /\ (ar_error r = None -> ar_session r = None ->
          toasts (prov w') = toasts (prov w)
          /\ pushes (prov w') = pushes (prov w)
          /\ user (prov w') = user (prov w)
          /\ calls w'
             = calls w
               ++ [CSignInWithPassword email_ passwordAttempt (Returned r)])
  | Threw e =>
      res = Threw e /\ isLoading (prov w') = true
  end.
Proof.
  intros Hsign. destruct w as [sv p c ps]. simpl in Hsign.
  unfold login. simpl. rewrite Hsign.
  destruct o as [[sess [error|]]|e]; simpl.
  - intros [= <- <-]. repeat split; discriminate.
  - destruct sess as [session|]; simpl.
    + rewrite run_bind, run_bind.
      match goal with
      | |- context [run (handleSession captured (Some session)) ?w1] =>
          destruct (handleSession_returns captured (Some session) w1)
            as (r & w2 & Hrun & Hpub); rewrite Hrun
      end.
      destruct w2 as [sv2 p2 c2 ps2]. simpl.
      intros [= <- <-]. repeat split; discriminate.
    + intros [= <- <-]. repeat split; reflexivity.
  - intros [= <- <-]. split; reflexivity.
Qed.
End Mounting.

Transparent handleSession.

(** *** Profile and password updates *)

Section Updates.
Context {S : Type} `{Supabase S}.

(** Starting a function without awaiting it stops it where [settle]
    stops it. *)
Lemma run_start {A} (m : Prog A) (w : World S) :
  run (start m) w
  = (Returned (fst (settle m (prov w))),
     set_prov (snd (settle m (prov w))) w).
Proof.
  revert w; induction m as [a|e|X op k IH|X op k IH]; intros w;
    try (destruct w; reflexivity).
  simpl. destruct (do_local op (prov w)) as [x p'].
  rewrite IH. reflexivity.
Qed.

(** A pass that has been started shows nothing before its first
    [await], and publishes only when it was given no session. *)
Lemma started_pass captured session (p : Provider) :
  toasts (snd (settle (handleSession captured session) p)) = toasts p
  /\ user (snd (settle (handleSession captured session) p))
     = match session with
       | Some _ => user p
       | None => None
       end.
Proof.
  destruct p. destruct session as [sess|]; [|simpl; tauto].
  unfold_pass. simpl.
  destruct (s_expires_at sess) as [e|]; simpl; [|tauto].
  match goal with
  | |- context [isExpired e ?t] => destruct (isExpired e t)
  end; simpl; tauto.
Qed.

(** What is left of a started pass returns when it is run on, and what
    it returns is then the published user. *)
Lemma left_pass_returns captured session (p : Provider) (w : World S) :
  user (prov w) = user (snd (settle (handleSession captured session) p)) ->
  exists r w',
    run (fst (settle (handleSession captured session) p)) w
    = (Returned r, w')
    /\ user (prov w') = r.
Proof.
  destruct p. destruct w as [s [] c ps].
  destruct session as [sess|]; [|simpl; intros ->; eauto].
  intros _. unfold_pass. simpl.
  destruct (s_expires_at sess) as [e|]; simpl.
  - match goal with
    | |- context [isExpired e ?t] => destruct (isExpired e t)
    end; split_run; eauto.
  - split_run; eauto.
Qed.

(** X22.  [updateUserProfile] once the update call has returned.  With an
    error: it returns false, shows "Failed to update profile." and makes
    no other call.  Without: it reads the current session and starts a
    pass on it without awaiting it; it shows "Success" and returns true
    before any call of that pass is answered, with the published user
    still the one from before (or null when there is no current
    session).  The pass it has left running returns when it is run on,
    and what it returns is then the published user.  When the session
    read throws, [updateUserProfile] throws. *)
Theorem updateUserProfile_outcomes captured u name (w w' : World S)
  res o s1 :
  respond (UpdateUsername "profile" (id u) name) (svc w)
  = (Returned o, s1) ->
  run (updateUserProfile captured (Some u) name) w = (res, w') ->
  (forall error,
     o = Some error ->
     res = Returned (false, None)
     /\ calls w'
        = calls w ++ [CUpdateUsername "profile" (id u) name (Returned o)]
     /\ user (prov w') = user (prov w)
     /\ toasts (prov w')
        = toasts (prov w)
          ++ [{| title := "Error";
                 description := "Failed to update profile.";
                 destructive := true |}])
  /\ (o = None ->
      (forall e s2, respond GetSession s1 = (Threw e, s2) -> res = Threw e)
      /\ (forall current s2,
            respond GetSession s1 = (Returned current, s2) ->
            res = Returned
                    (true,
                     Some (fst (settle
                                  (handleSession captured
                                     (ar_session current)) (prov w))))
            /\ calls w'
               = calls w
                 ++ [CUpdateUsername "profile" (id u) name (Returned o);
                     CGetSession (Returned current)]
            /\ toasts (prov w')
               = toasts (prov w)
                 ++ [{| title := "Success";
                        description := "Your profile has been updated.";
                        destructive := false |}]
            /\ user (prov w')
               = match ar_session current with
                 | Some _ => user (prov w)
                 | None => None
                 end
            /\ exists r w2,
                 run (fst (settle
                             (handleSession captured (ar_session current))
                             (prov w))) w'
                 = (Returned r, w2)
                 /\ user (prov w2) = r)).
Proof.
  intros Hupd.
  unfold updateUserProfile, toast. simpl. rewrite Hupd.
  destruct o as [error|]; simpl.
  - intros [= <- <-]. simpl. split; [|discriminate].
    intros ? _. repeat split.
  - destruct (respond GetSession s1) as [[current|e] s2] eqn:Hget; simpl.
    + rewrite run_bind, run_start. simpl.
      intros [= <- <-]. split; [discriminate|]. intros _.
      split; [intros ? ? [=]|].
      intros ? ? [= <- <-].
      destruct (started_pass captured (ar_session current) (prov w))
        as (Ht & Hu).
      split; [reflexivity|]. simpl.
      split; [rewrite <- app_assoc; reflexivity|].
      split; [rewrite Ht; reflexivity|].
      split; [exact Hu|].
      apply left_pass_returns. reflexivity.
    + intros [= <- <-]. split; [discriminate|]. intros _.
      split; [intros ? ? [= <- _]; reflexivity | intros ? ? [=]].
Qed.

(** X23.  [updateUserPassword] throws only when one of its calls throws
    [null] or [undefined]: its [catch] then throws a TypeError, after it
    has cleared [isPasswordUpdateFlow] and before any notification.
    Otherwise it returns: true exactly when its last call is an
    [updateUser] answered without error.  When the old password is
    refused, [updateUser] is not called.  When either call is refused it
    returns false with [isPasswordUpdateFlow] left set and no timer to
    clear it; when a call throws another value it returns false with
    the flag cleared. *)
Theorem updateUserPassword_outcomes u oldPass newPass (w w' : World S)
  res cs :
  run (updateUserPassword (Some u) oldPass newPass) w = (res, w') ->
  calls w' = calls w ++ cs ->
  ((forall c, In c cs -> thrown_value c <> Some Nullish) ->
   exists b, res = Returned b)
  /\ (forall c,
        In c cs -> thrown_value c = Some Nullish ->
        res = Threw TypeError
        /\ isPasswordUpdateFlow (prov w') = false
        /\ toasts (prov w') = toasts (prov w))
  /\ (res = Returned true <->
      exists pre, cs = pre ++ [CUpdateUser newPass (Returned None)])
  /\ (forall r error,
        In (CSignInWithPassword (email u) oldPass (Returned r)) cs ->
        ar_error r = Some error ->
        res = Returned false
        /\ cs = [CSignInWithPassword (email u) oldPass (Returned r)]
        /\ isPasswordUpdateFlow (prov w') = true
        /\ timers (prov w') = timers (prov w))
  /\ (forall error,
        In (CUpdateUser newPass (Returned (Some error))) cs ->
        res = Returned false
        /\ isPasswordUpdateFlow (prov w') = true
        /\ timers (prov w') = timers (prov w))
  /\ (forall c message,
        In c cs -> thrown_value c = Some (Thrown message) ->
        res = Returned false
        /\ isPasswordUpdateFlow (prov w') = false)
  /\ (oldPass = "" ->
      forall e p o, ~ In (CSignInWithPassword e p o) cs).
Proof.
  destruct w as [sv [] c ps].
  unfold updateUserPassword, toast, log_.
  split_run.
  all: simpl.
  all: try match goal with
           | |- context [match ?e with Nullish => _ | Thrown _ => _ end] =>
               destruct e
           end.
  all: split_run.
  all: intros Hrun Hcalls; leaf Hrun Hcalls.
  all: refine (conj _ (conj _ (conj _ (conj _ (conj _ (conj _ _)))))).
  all: try (intros _; eexists; reflexivity).
  all: try (intros Hno; exfalso;
            first [ eapply Hno; [left; reflexivity | reflexivity]
                  | eapply Hno; [right; left; reflexivity | reflexivity] ]).
  all: try (intros ? Hin Hthrown; simpl in Hin;
            repeat (destruct Hin as [Hin|Hin]; try contradiction);
            subst; simpl in Hthrown; try discriminate;
            repeat split; reflexivity).
  all: try (split; [ discriminate
                   | intros ([|? [|? [|? ?]]] & Hpre); simpl in Hpre;
                     discriminate ]).
  all: try (split; [ intros _; first [ exists []; reflexivity
                                      | eexists [_]; reflexivity ]
                   | reflexivity ]).
  all: try (intros ? ? Hin Herr; simpl in Hin;
            repeat (destruct Hin as [Hin|Hin]; try discriminate);
            try contradiction;
            injection Hin as <-; simpl in Herr; try discriminate;
            repeat split; reflexivity).
  all: try (intros ? Hin; simpl in Hin;
            repeat (destruct Hin as [Hin|Hin]; try discriminate);
            try contradiction; repeat split; reflexivity).
  all: try (intros ? ? Hin Hthrown; simpl in Hin;
            repeat (destruct Hin as [Hin|Hin]; try contradiction);
            subst; simpl in Hthrown; try discriminate;
            split; reflexivity).
  all: try (intros -> ? ? ? Hin; simpl in Hin;
            repeat (destruct Hin as [Hin|Hin]; try discriminate);
            contradiction).
  all: try (intros Hold ? ? ? Hin; subst; discriminate).
Qed.
End Updates.

(** *** Concrete runs of the operations *)

Lemma logout_navigates_witness :
  pushes (prov (snd (run logout (signed_in [acknowledged] some_day))))
  = ["/auth"]
  /\ user (prov (snd (run logout (signed_in [acknowledged] some_day))))
     = Some ana_user.
Proof.
  destruct (logout_navigates (signed_in [acknowledged] some_day)
              (snd (run logout (signed_in [acknowledged] some_day)))
              (fst (run logout (signed_in [acknowledged] some_day)))
              (surjective_pairing _))
    as (Hu & _ & _).
  split; [reflexivity | exact Hu].
Defined.

Lemma refreshUser_gives_up_witness :
  user (prov (snd (run (refreshUser false)
                     (signed_in give_up_script some_day)))) = None
  /\ pushes (prov (snd (run (refreshUser false)
                         (signed_in give_up_script some_day)))) = [].
Proof.
  destruct (refreshUser_gives_up false
              (signed_in give_up_script some_day)
              (snd (run (refreshUser false)
                      (signed_in give_up_script some_day)))
              (fst (run (refreshUser false)
                      (signed_in give_up_script some_day)))
              {| ar_session := None;
                 ar_error := Some {| err_code := "refresh_token_not_found";
                                     err_message := "Invalid Refresh Token" |} |}
              [refresh_failed; acknowledged]
              {| ar_session := None;
                 ar_error := Some {| err_code := "refresh_token_not_found";
                                     err_message := "Invalid Refresh Token" |} |}
              [acknowledged] None [])
    as (_ & Hu & _ & _ & Hp);
    [ reflexivity | discriminate | reflexivity | discriminate
    | reflexivity | apply surjective_pairing | ].
  split; [exact Hu | exact Hp].
Defined.

Lemma initialSession_ends_loading_only_without_error_witness :
  isLoading (prov (snd (run (initialSession false)
                          (world login_script some_day)))) = false
  /\ isLoading (prov (snd (run (initialSession false)
                             (world give_up_script some_day)))) = true.
Proof.
  split.
  - destruct (initialSession_ends_loading_only_without_error false
                (world login_script some_day)
                (snd (run (initialSession false)
                        (world login_script some_day)))
                (fst (run (initialSession false)
                        (world login_script some_day)))
                {| ar_session := Some ana_session; ar_error := None |}
                [found ana_officer_row; no_applicant])
      as (_ & Hok & _); [reflexivity | apply surjective_pairing |].
    exact (proj1 (Hok eq_refl)).
  - destruct (initialSession_ends_loading_only_without_error false
                (world give_up_script some_day)
                (snd (run (initialSession false)
                        (world give_up_script some_day)))
                (fst (run (initialSession false)
                        (world give_up_script some_day)))
                {| ar_session := None;
                   ar_error := Some {| err_code := "refresh_token_not_found";
                                       err_message := "Invalid Refresh Token" |} |}
                [refresh_failed; acknowledged])
      as (_ & _ & Herr); [reflexivity | apply surjective_pairing |].
    exact (proj1 (Herr ltac:(discriminate))).
Defined.

Lemma login_loading_witness :
  isLoading (prov (snd (run (login false "ana@example.ph" "s3cret")
                          (world [] some_day)))) = true
  /\ isLoading (prov (snd (run (login false "ana@example.ph" "s3cret")
                             (world login_script some_day)))) = false.
Proof.
  split.
  - exact (proj2 (login_loading false "ana@example.ph" "s3cret"
                    (world [] some_day)
                    (snd (run (login false "ana@example.ph" "s3cret")
                            (world [] some_day)))
                    (fst (run (login false "ana@example.ph" "s3cret")
                            (world [] some_day)))
                    (Threw offScript) [] eq_refl (surjective_pairing _))).
  - exact (proj1 (proj2
             (login_loading false "ana@example.ph" "s3cret"
                (world login_script some_day)
                (snd (run (login false "ana@example.ph" "s3cret")
                        (world login_script some_day)))
                (fst (run (login false "ana@example.ph" "s3cret")
                        (world login_script some_day)))
                (Returned {| ar_session := Some ana_session;
                             ar_error := None |})
                [found ana_officer_row; no_applicant]
                eq_refl (surjective_pairing _)))).
Defined.

Lemma updateUserProfile_outcomes_witness :
  user (prov (snd (run (updateUserProfile false (Some ana_user) (Some "Ana"))
                     (signed_in profile_updated_script some_day))))
  = Some ana_user
  /\ calls (snd (run (updateUserProfile false (Some ana_user) (Some "Ana"))
                   (signed_in profile_updated_script some_day)))
     = [CUpdateUsername "profile" "7f3c" (Some "Ana") (Returned None);
        CGetSession (Returned {| ar_session := Some ana_session;
                                 ar_error := None |})].
Proof.
  destruct (updateUserProfile_outcomes false ana_user (Some "Ana")
              (signed_in profile_updated_script some_day)
              (snd (run (updateUserProfile false (Some ana_user) (Some "Ana"))
                      (signed_in profile_updated_script some_day)))
              (fst (run (updateUserProfile false (Some ana_user) (Some "Ana"))
                      (signed_in profile_updated_script some_day)))
              None [session_answer; found ana_officer_row; no_applicant])
    as (_ & Hok); [reflexivity | apply surjective_pairing |].
  destruct (Hok eq_refl) as (_ & Hret).
  destruct (Hret {| ar_session := Some ana_session; ar_error := None |}
              [found ana_officer_row; no_applicant] eq_refl)
    as (_ & Hcalls & _ & Hu & _).
  split; [exact Hu | exact Hcalls].
Defined.

Lemma updateUserPassword_outcomes_witness :
  exists b,
    fst (run (updateUserPassword (Some ana_user) "s3cret" "n3w")
           (signed_in password_changed_script some_day)) = Returned b.
Proof.
  refine (proj1
    (updateUserPassword_outcomes ana_user "s3cret" "n3w"
       (signed_in password_changed_script some_day)
       (snd (run (updateUserPassword (Some ana_user) "s3cret" "n3w")
               (signed_in password_changed_script some_day)))
       (fst (run (updateUserPassword (Some ana_user) "s3cret" "n3w")
               (signed_in password_changed_script some_day)))
       [CSignInWithPassword "ana@example.ph" "s3cret"
          (Returned {| ar_session := Some ana_session; ar_error := None |});
        CUpdateUser "n3w" (Returned None)]
       (surjective_pairing _) eq_refl) _).
  intros c [<-|[<-|[]]]; discriminate.
Defined.

Lemma pending_pass_survives_other_notifications_witness :
  passes (advance false 60
            (deliver TOKEN_REFRESHED (Some ana_session)
               (advance false 40
                  (deliver SIGNED_IN (Some ana_session)
                     (world officer_script some_day)))))
  = [Some ana_session].
Proof.
  refine (proj2
    (pending_pass_survives_other_notifications false
       (world officer_script some_day)
       SIGNED_IN (Some ana_session) TOKEN_REFRESHED (Some ana_session)
       40 60 (debounce_inv_mounted _) eq_refl eq_refl _ _)); lia.
Defined.


Lemma second_user_updated_does_not_extend_the_window_witness :
  user (prov (deliver SIGNED_OUT None
                (advance false 500
                   (deliver USER_UPDATED (Some ana_session)
                      (advance false 1500
                         (deliver USER_UPDATED (Some ana_session)
                            (signed_in officer_script some_day)))))))
  = None.
Proof.
  apply (second_user_updated_does_not_extend_the_window false
           (signed_in officer_script some_day)
           (Some ana_session) (Some ana_session) None 1500 500); lia.
Defined.

Lemma logout_inside_the_window_keeps_the_user_witness :
  user (prov (deliver SIGNED_OUT None
                (snd (run logout
                        (advance false 500
                           (deliver USER_UPDATED (Some ana_session)
                              (signed_in [acknowledged] some_day)))))))
  = Some ana_user.
Proof.
  refine (proj1
    (logout_inside_the_window_keeps_the_user false
       (signed_in [acknowledged] some_day)
       (snd (run logout
               (advance false 500
                  (deliver USER_UPDATED (Some ana_session)
                     (signed_in [acknowledged] some_day)))))
       (Some ana_session) None 500
       (fst (run logout
               (advance false 500
                  (deliver USER_UPDATED (Some ana_session)
                     (signed_in [acknowledged] some_day)))))
       _ _ (surjective_pairing _))).
  - intros t [].
  - lia.
Defined.

Lemma route_guard_settles_witness :
  routeGuard false (Some ana_user) "/public/home" = None.
Proof.
  apply (route_guard_settles false (Some ana_user) "/dashboard/applications").
  reflexivity.
Defined.

Lemma applicant_read_is_never_fatal_witness :
  exists u,
    fst (run (handleSession false (Some ana_session))
           (world [found ana_officer_row] some_day)) = Returned (Some u)
    /\ role u = "officer" /\ registrationStatus u = None.
Proof.
  destruct (applicant_read_is_never_fatal false ana_session
              (world [found ana_officer_row] some_day)
              (snd (run (handleSession false (Some ana_session))
                      (world [found ana_officer_row] some_day)))
              (fst (run (handleSession false (Some ana_session))
                      (world [found ana_officer_row] some_day)))
              [CSelectSingle "app_user" "7f3c"
                 (Returned {| q_data := Some ana_officer_row;
                              q_error := None |});
               CSelectApplicant "7f3c" (Threw offScript)]
              (Returned {| q_data := Some ana_officer_row; q_error := None |})
              ana_officer_row)
    as (u & a & Hres & _ & _ & _ & Hrole & _ & _ & Hlast & Hnone);
    [ apply surjective_pairing | reflexivity | reflexivity | reflexivity | ].
  exists u. split; [exact Hres|]. split; [exact Hrole|].
  injection Hlast as <-. exact (proj1 (Hnone eq_refl)).
Defined.

Lemma pass_touches_only_its_own_profile_witness :
  Forall (own_call ana)
    (calls (snd (run (handleSession false (Some ana_session))
                   (world creator_script some_day)))).
Proof.
  exact (proj1
    (pass_touches_only_its_own_profile false ana_session
       (world creator_script some_day)
       (snd (run (handleSession false (Some ana_session))
               (world creator_script some_day)))
       (fst (run (handleSession false (Some ana_session))
               (world creator_script some_day)))
       (calls (snd (run (handleSession false (Some ana_session))
                      (world creator_script some_day))))
       (surjective_pairing _) eq_refl)).
Defined.

Lemma unexpired_session_is_not_refreshed_witness :
  (forall o,
     ~ In (CRefreshSession o)
         (calls (snd (run (handleSession false (Some ana_epoch))
                        (world officer_script some_day)))))
  /\ (forall o,
        ~ In (CSignOut o)
            (calls (snd (run (handleSession false (Some ana_epoch))
                           (world officer_script some_day))))).
Proof.
  refine (unexpired_session_is_not_refreshed false ana_epoch
            (world officer_script some_day)
            (snd (run (handleSession false (Some ana_epoch))
                    (world officer_script some_day)))
            (fst (run (handleSession false (Some ana_epoch))
                    (world officer_script some_day)))
            (calls (snd (run (handleSession false (Some ana_epoch))
                           (world officer_script some_day))))
            _ (surjective_pairing _) eq_refl).
  left. reflexivity.
Defined.

Lemma sendPasswordResetEmail_outcomes_witness :
  fst (site_run obliging (sendPasswordResetEmail production "ana@example.ph"))
  = Returned true.
Proof.
  exact (proj1 (proj2
    (sendPasswordResetEmail_outcomes obliging production "ana@example.ph"
       "https://erehistro.example" eq_refl))).
Defined.
